(** * Loan approval predictor: a shallow embedding of
      [src/lib/ml/loan-predictor.ts]

    Numbers.  A JavaScript [number] is modelled by an exact rational ([Q]);
    the one transcendental step, [Math.exp] inside [scoreToTprobability],
    is taken in the reals ([R]).  Rounding of IEEE doubles, [NaN] and the
    infinities are outside this model; the single place where the source
    can produce [NaN] (a zero divisor in [retrainModel]) is made explicit
    with an [option].  The exact value and the double the program holds
    differ by rounding, so a statement that turns on a number sitting
    exactly on a threshold is made about the computed number itself, not
    about the exact one (see [predictFromScore] and the drift report).

    Effects.  The service object holds two mutable fields that matter
    ([modelWeights] and [metrics]); its methods are written in a small
    state-and-environment monad whose environment supplies [Math.random]
    and [new Date()]. *)

From Stdlib Require Import QArith Qround Qminmax Qabs Qreals.
From Stdlib Require Import Reals Lra Lqa Lia ZArith String List Bool.
Import ListNotations.

Open Scope string_scope.
Open Scope Q_scope.

(* ================================================================== *)
(** ** JavaScript comparisons on numbers *)

Module JS.

Definition geb (a b : Q) : bool := Qle_bool b a.          (* a >= b *)
Definition leb (a b : Q) : bool := Qle_bool a b.          (* a <= b *)
Definition gtb (a b : Q) : bool := negb (Qle_bool a b).   (* a >  b *)
Definition ltb (a b : Q) : bool := negb (Qle_bool b a).   (* a <  b *)
Definition eqb (a b : Q) : bool := Qeq_bool a b.          (* a === b *)

(** [Math.round]: the nearest integer, ties towards plus infinity. *)
Definition round (x : Q) : Z := Qfloor (x + 0.5).

(** [Math.floor]. *)
Definition floor (x : Q) : Z := Qfloor x.

(** Truthiness of a nullable number / string / boolean ([x || d]). *)
Definition truthy_num (x : option Q) : bool :=
  match x with Some v => negb (Qeq_bool v 0) | None => false end.

(** A nullable number used in arithmetic ([null] counts as zero). *)
Definition num (x : option Q) : Q :=
  match x with Some v => v | None => 0 end.

Definition truthy_str (x : option string) : bool :=
  match x with Some v => negb (String.eqb v EmptyString) | None => false end.

Definition or_num (x : option Q) (d : Q) : Q :=
  match x with
  | Some v => if Qeq_bool v 0 then d else v
  | None => d
  end.

Definition or_str (x : option string) (d : string) : string :=
  match x with
  | Some v => if String.eqb v EmptyString then d else v
  | None => d
  end.

Definition or_bool (x : option bool) (d : bool) : bool :=
  match x with
  | Some true => true
  | _ => d
  end.

End JS.

Declare Scope js_scope.
Delimit Scope js_scope with js.
Infix ">=?" := JS.geb (at level 70, no associativity) : js_scope.
Infix "<=?" := JS.leb (at level 70, no associativity) : js_scope.
Infix ">?" := JS.gtb (at level 70, no associativity) : js_scope.
Infix "<?" := JS.ltb (at level 70, no associativity) : js_scope.
Infix "===?" := JS.eqb (at level 70, no associativity) : js_scope.
Local Open Scope js_scope.

(* ================================================================== *)
(** ** The prediction input and its zod schema *)

Record LoanPredictionInput : Type := mkInput {
  creditScore : Q;
  annualIncome : Q;
  employmentLength : Q;
  loanAmount : Q;
  loanPurpose : string;
  debtToIncome : Q;
  hasDerogatory : bool;
  delinquenciesLast2Years : Q;
  inquiriesLast6Months : Q;
  homeOwnership : string;
  verificationStatus : string
}.

(** What [schema.parse] reports: one issue per violated check, each with
    the path of the offending field. *)
Module Zod.

Inductive IssueCode : Type :=
| too_small
| too_big
| invalid_enum_value.

Record Issue : Type := mkIssue { path : string; code : IssueCode }.

(** A [ZodError] is the (non-empty) list of issues. *)
Definition ZodError : Type := list Issue.

(** [z.number().min(lo)] : inclusive lower bound. *)
Definition min (field : string) (lo x : Q) : list Issue :=
  if x >=? lo then [] else [mkIssue field too_small].

(** [z.number().max(hi)] : inclusive upper bound. *)
Definition max (field : string) (hi x : Q) : list Issue :=
  if x <=? hi then [] else [mkIssue field too_big].

(** [z.number().positive()] : strictly greater than zero. *)
Definition positive (field : string) (x : Q) : list Issue :=
  if x >? 0 then [] else [mkIssue field too_small].

(** [z.enum([...])]. *)
Definition enum (field : string) (allowed : list string) (x : string)
  : list Issue :=
  if existsb (String.eqb x) allowed then []
  else [mkIssue field invalid_enum_value].

End Zod.

Definition loanPurposes : list string :=
  ["home_loan"; "auto_loan"; "personal_loan"; "debt_consolidation";
   "business_loan"].
Definition homeOwnerships : list string := ["own"; "rent"; "mortgage"].
Definition verificationStatuses : list string :=
  ["verified"; "source_verified"; "not_verified"].

(** The issues of [LoanPredictionInputSchema], in schema order. *)
Definition LoanPredictionInputSchema (i : LoanPredictionInput)
  : list Zod.Issue :=
  (Zod.min "creditScore" 300 (creditScore i)
     ++ Zod.max "creditScore" 850 (creditScore i))
  ++ Zod.positive "annualIncome" (annualIncome i)
  ++ Zod.min "employmentLength" 0 (employmentLength i)
  ++ Zod.positive "loanAmount" (loanAmount i)
  ++ Zod.enum "loanPurpose" loanPurposes (loanPurpose i)
  ++ (Zod.min "debtToIncome" 0 (debtToIncome i)
        ++ Zod.max "debtToIncome" 1 (debtToIncome i))
  ++ Zod.min "delinquenciesLast2Years" 0 (delinquenciesLast2Years i)
  ++ Zod.min "inquiriesLast6Months" 0 (inquiriesLast6Months i)
  ++ Zod.enum "homeOwnership" homeOwnerships (homeOwnership i)
  ++ Zod.enum "verificationStatus" verificationStatuses
       (verificationStatus i).

(** [validateInput]: [parse] throws the [ZodError] when there is an issue
    and returns the parsed object otherwise. *)
Definition validateInput (input : LoanPredictionInput)
  : Zod.ZodError + LoanPredictionInput :=
  match LoanPredictionInputSchema input with
  | [] => inr input
  | issues => inl issues
  end.

(* ================================================================== *)
(** ** Model state *)

Record FeatureImportance : Type := mkWeights {
  w_creditScore : Q;
  w_debtToIncome : Q;
  w_annualIncome : Q;
  w_employmentLength : Q;
  w_hasDerogatory : Q;
  w_delinquenciesLast2Years : Q;
  w_inquiriesLast6Months : Q;
  w_loanAmount : Q;
  w_homeOwnership : Q;
  w_verificationStatus : Q
}.

Record ModelMetrics : Type := mkMetrics {
  accuracy : Q;
  precision : Q;
  recall : Q;
  f1Score : Q;
  lastTrained : Z;      (* milliseconds since the epoch *)
  trainingSize : Q
}.

Inductive Prediction : Type := approved | denied.
Inductive Confidence : Type := high | medium | low.

Record PredictionResult : Type := mkResult {
  prediction : Prediction;
  probability : R;
  confidence : Confidence;
  score : Z;
  reasons : list string;
  featureImportance : FeatureImportance;
  riskFactors : list string;
  positiveFactors : list string
}.

(** The weights set by the constructor. *)
Definition initialWeights : FeatureImportance := {|
  w_creditScore := 0.35;
  w_debtToIncome := 0.25;
  w_annualIncome := 0.15;
  w_employmentLength := 0.08;
  w_hasDerogatory := 0.07;
  w_delinquenciesLast2Years := 0.05;
  w_inquiriesLast6Months := 0.03;
  w_loanAmount := 0.02;
  w_homeOwnership := 0.005;
  w_verificationStatus := 0.005
|}.

(** [new Date('2024-01-15')] in milliseconds. *)
Definition date_2024_01_15 : Z := 1705276800000.

Definition initialMetrics : ModelMetrics := {|
  accuracy := 0.87;
  precision := 0.82;
  recall := 0.91;
  f1Score := 0.86;
  lastTrained := date_2024_01_15;
  trainingSize := 10000
|}.

(* ================================================================== *)
(** ** Score components *)

Definition calculateCreditScoreComponent (creditScore : Q) : Q :=
  if creditScore >=? 750 then 1.0
  else if creditScore >=? 700 then 0.8
  else if creditScore >=? 650 then 0.6
  else if creditScore >=? 600 then 0.4
  else if creditScore >=? 550 then 0.2
  else 0.1.

Definition calculateDebtToIncomeComponent (dti : Q) : Q :=
  if dti <=? 0.15 then 1.0
  else if dti <=? 0.25 then 0.8
  else if dti <=? 0.35 then 0.6
  else if dti <=? 0.43 then 0.4
  else 0.1.

Definition calculateIncomeComponent (income : Q) : Q :=
  if income >=? 100000 then 1.0
  else if income >=? 75000 then 0.8
  else if income >=? 50000 then 0.6
  else if income >=? 35000 then 0.4
  else if income >=? 25000 then 0.2
  else 0.1.

Definition calculateEmploymentComponent (years : Q) : Q :=
  if years >=? 5 then 1.0
  else if years >=? 3 then 0.8
  else if years >=? 2 then 0.6
  else if years >=? 1 then 0.4
  else 0.2.

(** [income] is non-zero on every validated input, so the quotient is the
    exact one. *)
Definition calculateLoanAmountComponent (loanAmount income : Q) : Q :=
  let loanToIncomeRatio := loanAmount / income in
  if loanToIncomeRatio <=? 0.2 then 1.0
  else if loanToIncomeRatio <=? 0.3 then 0.8
  else if loanToIncomeRatio <=? 0.4 then 0.6
  else if loanToIncomeRatio <=? 0.5 then 0.4
  else 0.2.

Definition calculateHomeOwnershipBonus (homeOwnership : string) : Q :=
  if String.eqb homeOwnership "own" then 20
  else if String.eqb homeOwnership "mortgage" then 15
  else if String.eqb homeOwnership "rent" then 5
  else 0.

Definition calculateVerificationBonus (status : string) : Q :=
  if String.eqb status "verified" then 15
  else if String.eqb status "source_verified" then 10
  else if String.eqb status "not_verified" then 0
  else 0.

(* ================================================================== *)
(** ** Scoring *)

(** The local [rawScore] of [predict].  The sum is exact here, where the
    source adds doubles left to right: the number the program holds can
    differ from this one by rounding (of the order of 1e-13), which
    matters only when this one sits exactly on a threshold. *)
Definition rawScore (w : FeatureImportance) (i : LoanPredictionInput) : Q :=
  let creditScoreComponent := calculateCreditScoreComponent (creditScore i) in
  let debtToIncomeComponent :=
    calculateDebtToIncomeComponent (debtToIncome i) in
  let incomeComponent := calculateIncomeComponent (annualIncome i) in
  let employmentComponent :=
    calculateEmploymentComponent (employmentLength i) in
  let derogatoryPenalty := if hasDerogatory i then -50 else 0 in
  let delinquencyPenalty := delinquenciesLast2Years i * -10 in
  let inquiryPenalty := inquiriesLast6Months i * -5 in
  let loanAmountComponent :=
    calculateLoanAmountComponent (loanAmount i) (annualIncome i) in
  let homeOwnershipBonus := calculateHomeOwnershipBonus (homeOwnership i) in
  let verificationBonus :=
    calculateVerificationBonus (verificationStatus i) in
  (creditScoreComponent * w_creditScore w +
   debtToIncomeComponent * w_debtToIncome w +
   incomeComponent * w_annualIncome w +
   employmentComponent * w_employmentLength w +
   derogatoryPenalty * w_hasDerogatory w +
   delinquencyPenalty * w_delinquenciesLast2Years w +
   inquiryPenalty * w_inquiriesLast6Months w +
   loanAmountComponent * w_loanAmount w +
   homeOwnershipBonus * w_homeOwnership w +
   verificationBonus * w_verificationStatus w) * 1000.

(** The local [score] of [predict]: the clamped, not yet rounded score. *)
Definition clampedScore (w : FeatureImportance) (i : LoanPredictionInput)
  : Q :=
  Qmax 0 (Qmin 1000 (rawScore w i)).

(** Sigmoid centred at 650 with scale 200, over the reals.  It is
    strictly increasing; the double sigmoid of the source is increasing
    but can map neighbouring scores to the same double. *)
Definition scoreToTprobability (score : Q) : R :=
  let normalizedScore := (score - 650) / 200 in
  (1 / (1 + exp (- Q2R normalizedScore)))%R.

(** [probability >= 0.5 ? 'approved' : 'denied']. *)
Definition decide (probability : R) : Prediction :=
  if Rge_dec probability 0.5 then approved else denied.

Definition b2n (b : bool) : nat := if b then 1%nat else 0%nat.

Definition calculateConfidence (score : Q) (input : LoanPredictionInput)
  : Confidence :=
  let f1 := b2n ((creditScore input >=? 750) || (creditScore input <=? 550)) in
  let f2 := b2n ((debtToIncome input <=? 0.2) || (debtToIncome input >=? 0.4)) in
  let f3 :=
    b2n ((annualIncome input >=? 100000) || (annualIncome input <=? 30000)) in
  let f4 :=
    b2n ((employmentLength input >=? 5) || (employmentLength input <? 1)) in
  let f5 := b2n (hasDerogatory input) in
  let f6 := b2n (delinquenciesLast2Years input >=? 3) in
  let f7 := b2n ((score >=? 800) || (score <=? 400)) in
  let confidenceFactors := (f1 + f2 + f3 + f4 + f5 + f6 + f7)%nat in
  if Nat.leb 4 confidenceFactors then high
  else if Nat.leb 2 confidenceFactors then medium
  else low.

(** [if (c) list.push(s)] *)
Definition push_if (c : bool) (s : string) : list string :=
  if c then [s] else [].

Definition generateReasons (input : LoanPredictionInput) (score : Q)
    (prediction : Prediction) : list string :=
  match prediction with
  | approved =>
      (if creditScore input >=? 750 then
         ["Excellent credit score demonstrates strong payment history"]
       else if creditScore input >=? 700 then
         ["Good credit score indicates reliable payment behavior"]
       else [])
      ++ push_if (debtToIncome input <=? 0.25)
           "Low debt-to-income ratio shows strong financial capacity"
      ++ push_if (annualIncome input >=? 75000)
           "High annual income provides strong repayment ability"
      ++ push_if (employmentLength input >=? 3)
           "Stable employment history reduces risk"
      ++ push_if (negb (hasDerogatory input))
           "Clean credit history with no major derogatory marks"
      ++ push_if (String.eqb (homeOwnership input) "own")
           "Home ownership indicates financial stability"
      ++ push_if (String.eqb (verificationStatus input) "verified")
           "Verified income information increases confidence"
  | denied =>
      push_if (creditScore input <? 600)
        "Credit score below acceptable threshold indicates high risk"
      ++ push_if (debtToIncome input >? 0.43)
           "High debt-to-income ratio exceeds lending guidelines"
      ++ push_if (annualIncome input <? 30000)
           "Low income may not support loan repayment"
      ++ push_if (hasDerogatory input)
           "Derogatory marks on credit report raise concerns"
      ++ push_if (delinquenciesLast2Years input >=? 2)
           "Recent payment delinquencies indicate repayment risk"
      ++ push_if (inquiriesLast6Months input >=? 5)
           "Multiple recent credit inquiries suggest financial stress"
      ++ push_if (employmentLength input <? 1)
           "Short employment history increases income stability risk"
      ++ (let loanToIncomeRatio := loanAmount input / annualIncome input in
          push_if (loanToIncomeRatio >? 0.5)
            "Loan amount is too high relative to annual income")
  end.

Definition identifyRiskFactors (input : LoanPredictionInput) : list string :=
  push_if (creditScore input <? 650) "Below-average credit score"
  ++ push_if (debtToIncome input >? 0.35) "High debt-to-income ratio"
  ++ push_if (hasDerogatory input) "Derogatory credit marks"
  ++ push_if (delinquenciesLast2Years input >? 0)
       "Recent payment delinquencies"
  ++ push_if (inquiriesLast6Months input >? 3)
       "Multiple recent credit inquiries"
  ++ push_if (employmentLength input <? 2) "Short employment history"
  ++ push_if (annualIncome input <? 40000) "Lower income level"
  ++ push_if (String.eqb (verificationStatus input) "not_verified")
       "Unverified income".

Definition identifyPositiveFactors (input : LoanPredictionInput)
  : list string :=
  push_if (creditScore input >=? 750) "Excellent credit score"
  ++ push_if ((creditScore input >=? 700) && (creditScore input <? 750))
       "Good credit score"
  ++ push_if (debtToIncome input <=? 0.25) "Low debt-to-income ratio"
  ++ push_if (annualIncome input >=? 75000) "High annual income"
  ++ push_if (employmentLength input >=? 5) "Long employment history"
  ++ push_if (negb (hasDerogatory input)) "Clean credit history"
  ++ push_if (delinquenciesLast2Years input ===? 0) "No recent delinquencies"
  ++ push_if (String.eqb (homeOwnership input) "own") "Home ownership"
  ++ push_if (String.eqb (verificationStatus input) "verified")
       "Verified income".

(** The body of [predict] after validation, as a function of the weight
    table it reads.  In the source the [featureImportance] of the result
    is the service's weight object itself, not a copy; the record below
    holds what a caller reads from it until the next [retrainModel]. *)
Definition predictValidated (w : FeatureImportance)
    (validatedInput : LoanPredictionInput) : PredictionResult :=
  let score := clampedScore w validatedInput in
  let probability := scoreToTprobability score in
  let prediction := decide probability in
  let confidence := calculateConfidence score validatedInput in
  {| prediction := prediction;
     probability := probability;
     confidence := confidence;
     score := JS.round score;
     reasons := generateReasons validatedInput score prediction;
     featureImportance := w;
     riskFactors := identifyRiskFactors validatedInput;
     positiveFactors := identifyPositiveFactors validatedInput |}.

(** Lines 136-149 of [predict]: everything that follows the computation
    of the local [score], as a function of the number that local holds.
    [predictValidated] is this function at the exact clamped score. *)
Definition predictFromScore (w : FeatureImportance)
    (validatedInput : LoanPredictionInput) (score : Q) : PredictionResult :=
  let probability := scoreToTprobability score in
  let prediction := decide probability in
  let confidence := calculateConfidence score validatedInput in
  {| prediction := prediction;
     probability := probability;
     confidence := confidence;
     score := JS.round score;
     reasons := generateReasons validatedInput score prediction;
     featureImportance := w;
     riskFactors := identifyRiskFactors validatedInput;
     positiveFactors := identifyPositiveFactors validatedInput |}.

(* ================================================================== *)
(** ** The service object and its effects *)

Record LoanPredictionService : Type := mkService {
  modelWeights : FeatureImportance;
  metrics : ModelMetrics
}.

(** What a method can observe besides the service object: the sequence
    of values [Math.random()] will return, and the clock. *)
Record Env : Type := mkEnv {
  randoms : nat -> Q;
  now : Z
}.

(** The mutable world: the service object and how many random numbers
    have been drawn so far. *)
Record World : Type := mkWorld {
  service : LoanPredictionService;
  drawn : nat
}.

Definition M (A : Type) : Type := Env -> World -> A * World.

Definition ret {A} (a : A) : M A := fun _ s => (a, s).
Definition bind {A B} (m : M A) (f : A -> M B) : M B :=
  fun e s => let (a, s') := m e s in f a e s'.

Declare Scope m_scope.
Delimit Scope m_scope with M.
Notation "x <- m ;; k" := (bind m (fun x => k))
  (at level 61, m at next level, right associativity) : m_scope.
Notation "m ;;; k" := (bind m (fun _ => k))
  (at level 61, right associativity) : m_scope.

Definition getWeights : M FeatureImportance :=
  fun _ s => (modelWeights (service s), s).
Definition getMetrics : M ModelMetrics :=
  fun _ s => (metrics (service s), s).
Definition setWeights (w : FeatureImportance) : M unit :=
  fun _ s =>
    (tt, mkWorld (mkService w (metrics (service s))) (drawn s)).
Definition setMetrics (m : ModelMetrics) : M unit :=
  fun _ s =>
    (tt, mkWorld (mkService (modelWeights (service s)) m) (drawn s)).
(** [Math.random()] *)
Definition random : M Q :=
  fun e s => (randoms e (drawn s), mkWorld (service s) (S (drawn s))).
(** [new Date().getTime()] *)
Definition getTime : M Z := fun e s => (now e, s).

(** [new LoanPredictionService()] *)
Definition newService : LoanPredictionService :=
  mkService initialWeights initialMetrics.

Local Open Scope m_scope.

(** [predict]: validation failure is the thrown [ZodError]. *)
Definition predict (input : LoanPredictionInput)
  : M (Zod.ZodError + PredictionResult) :=
  match validateInput input with
  | inl err => ret (inl err)
  | inr validatedInput =>
      w <- getWeights ;;
      ret (inr (predictValidated w validatedInput))
  end.

(* ================================================================== *)
(** ** Stored applications *)

(** Modelled from the spec: the row type [LoanApplication] is declared in
    [@/lib/database-types], which is not among the sources.  The record
    lists exactly the columns that the converter and [retrainModel] read;
    every column is nullable, [None] standing for [null] or a missing
    value. *)
Record LoanApplication : Type := mkApplication {
  credit_score : option Q;
  annual_income : option Q;
  employment_length : option Q;
  loan_amount : option Q;
  loan_purpose : option string;
  monthly_debt_payment : option Q;
  has_derogatory : option bool;
  delinquencies_last_2years : option Q;
  inquiries_last_6months : option Q;
  home_ownership : option string;
  verification_status : option string
}.

Definition convertLoanApplicationToPredictionInput
    (application : LoanApplication) : LoanPredictionInput :=
  let debtToIncome :=
    if JS.truthy_num (monthly_debt_payment application)
       && JS.truthy_num (annual_income application)
    then (JS.num (monthly_debt_payment application) * 12)
         / JS.num (annual_income application)
    else 0 in
  {| creditScore := JS.or_num (credit_score application) 650;
     annualIncome := JS.or_num (annual_income application) 50000;
     employmentLength := JS.or_num (employment_length application) 0;
     loanAmount := JS.or_num (loan_amount application) 10000;
     loanPurpose := JS.or_str (loan_purpose application) "personal_loan";
     debtToIncome := debtToIncome;
     hasDerogatory := JS.or_bool (has_derogatory application) false;
     delinquenciesLast2Years :=
       JS.or_num (delinquencies_last_2years application) 0;
     inquiriesLast6Months :=
       JS.or_num (inquiries_last_6months application) 0;
     homeOwnership := JS.or_str (home_ownership application) "rent";
     verificationStatus :=
       JS.or_str (verification_status application) "not_verified" |}.

(* ================================================================== *)
(** ** Retraining *)

Definition weightAdjustment : Q := 0.05.

(** One iteration of the first [forEach]: draw, perturb, cut at zero. *)
Definition adjustWeight (currentWeight : Q) : M Q :=
  r <- random ;;
  let adjustment := (r - 0.5) * weightAdjustment in
  ret (Qmax 0 (currentWeight + adjustment)).

(** The first [forEach], in key order. *)
Definition perturbWeights (w : FeatureImportance) : M FeatureImportance :=
  a1 <- adjustWeight (w_creditScore w) ;;
  a2 <- adjustWeight (w_debtToIncome w) ;;
  a3 <- adjustWeight (w_annualIncome w) ;;
  a4 <- adjustWeight (w_employmentLength w) ;;
  a5 <- adjustWeight (w_hasDerogatory w) ;;
  a6 <- adjustWeight (w_delinquenciesLast2Years w) ;;
  a7 <- adjustWeight (w_inquiriesLast6Months w) ;;
  a8 <- adjustWeight (w_loanAmount w) ;;
  a9 <- adjustWeight (w_homeOwnership w) ;;
  a10 <- adjustWeight (w_verificationStatus w) ;;
  ret (mkWeights a1 a2 a3 a4 a5 a6 a7 a8 a9 a10).

Definition weightValues (w : FeatureImportance) : list Q :=
  [w_creditScore w; w_debtToIncome w; w_annualIncome w;
   w_employmentLength w; w_hasDerogatory w; w_delinquenciesLast2Years w;
   w_inquiriesLast6Months w; w_loanAmount w; w_homeOwnership w;
   w_verificationStatus w].

(** [Object.values(w).reduce((sum, weight) => sum + weight, 0)] *)
Definition totalWeight (w : FeatureImportance) : Q :=
  fold_left (fun sum weight => sum + weight) (weightValues w) 0.

(** The second [forEach].  With a zero total the source divides zero by
    zero and every weight becomes [NaN]; that outcome is [None]. *)
Definition normalizeWeights (w : FeatureImportance)
  : option FeatureImportance :=
  let total := totalWeight w in
  if Qeq_bool total 0 then None
  else Some {|
    w_creditScore := w_creditScore w / total;
    w_debtToIncome := w_debtToIncome w / total;
    w_annualIncome := w_annualIncome w / total;
    w_employmentLength := w_employmentLength w / total;
    w_hasDerogatory := w_hasDerogatory w / total;
    w_delinquenciesLast2Years := w_delinquenciesLast2Years w / total;
    w_inquiriesLast6Months := w_inquiriesLast6Months w / total;
    w_loanAmount := w_loanAmount w / total;
    w_homeOwnership := w_homeOwnership w / total;
    w_verificationStatus := w_verificationStatus w / total |}.

(** [trainingData?.length || this.metrics.trainingSize + ...] *)
Definition newTrainingSize (trainingData : option (list LoanApplication))
    (m : ModelMetrics) : M Q :=
  match trainingData with
  | Some ((_ :: _) as l) => ret (inject_Z (Z.of_nat (List.length l)))
  | _ =>
      r <- random ;;
      ret (trainingSize m + inject_Z (JS.floor (r * 1000)))
  end.

(** [retrainModel] (the two-second delay is not modelled).  The result is
    [None] exactly when normalisation yields [NaN] weights. *)
Definition retrainModel (trainingData : option (list LoanApplication))
  : M (option ModelMetrics) :=
  m <- getMetrics ;;
  r1 <- random ;;
  r2 <- random ;;
  r3 <- random ;;
  r4 <- random ;;
  t <- getTime ;;
  size <- newTrainingSize trainingData m ;;
  let m' := {|
    accuracy := Qmin 0.95 (accuracy m + r1 * 0.02);
    precision := Qmin 0.95 (precision m + r2 * 0.02);
    recall := Qmin 0.95 (recall m + r3 * 0.02);
    f1Score := Qmin 0.95 (f1Score m + r4 * 0.02);
    lastTrained := t;
    trainingSize := size |} in
  setMetrics m' ;;;
  w <- getWeights ;;
  w' <- perturbWeights w ;;
  setWeights w' ;;;
  match normalizeWeights w' with
  | None => ret None
  | Some w'' => setWeights w'' ;;; ret (Some m')
  end.

(** [getFeatureImportance] returns a copy of the weights. *)
Definition getFeatureImportance : M FeatureImportance := getWeights.

(* ================================================================== *)
(** ** Drift *)

Record ConfidenceDistribution : Type := mkDistribution {
  d_high : Q;
  d_medium : Q;
  d_low : Q
}.

Record DriftReport : Type := mkDrift {
  approvalRate : Q;
  averageScore : Q;
  confidenceDistribution : ConfidenceDistribution;
  needsRetraining : bool
}.

Definition Prediction_eqb (a b : Prediction) : bool :=
  match a, b with
  | approved, approved | denied, denied => true
  | _, _ => false
  end.

Definition Confidence_eqb (a b : Confidence) : bool :=
  match a, b with
  | high, high | medium, medium | low, low => true
  | _, _ => false
  end.

(** [xs.length] as a number. *)
Definition len {A} (xs : list A) : Q := inject_Z (Z.of_nat (List.length xs)).

Definition ninetyDays : Z := 90 * 24 * 60 * 60 * 1000.

(** The rates and shares are exact quotients here.  In the source
    [approvalRate - 0.65] is a double subtraction: at the rates 0.5 and
    0.8 it yields 0.15000000000000002, which exceeds the double 0.15, so
    at those two rates the program asks for retraining where the exact
    test below does not.  Everywhere else the two tests agree. *)
Definition calculateDrift (recentPredictions : list PredictionResult)
  : M DriftReport :=
  match recentPredictions with
  | [] =>
      ret {| approvalRate := 0;
             averageScore := 0;
             confidenceDistribution := mkDistribution 0 0 0;
             needsRetraining := false |}
  | _ :: _ =>
      let approvalRate :=
        len (filter (fun p => Prediction_eqb (prediction p) approved)
               recentPredictions) / len recentPredictions in
      let averageScore :=
        fold_left (fun sum p => sum + inject_Z (score p)) recentPredictions 0
        / len recentPredictions in
      let confidenceDistribution := {|
        d_high :=
          len (filter (fun p => Confidence_eqb (confidence p) high)
                 recentPredictions) / len recentPredictions;
        d_medium :=
          len (filter (fun p => Confidence_eqb (confidence p) medium)
                 recentPredictions) / len recentPredictions;
        d_low :=
          len (filter (fun p => Confidence_eqb (confidence p) low)
                 recentPredictions) / len recentPredictions |} in
      m <- getMetrics ;;
      t <- getTime ;;
      let needsRetraining :=
        (Qabs (approvalRate - 0.65) >? 0.15)
        || (d_low confidenceDistribution >? 0.3)
        || (ninetyDays <? t - lastTrained m)%Z in
      ret {| approvalRate := approvalRate;
             averageScore := averageScore;
             confidenceDistribution := confidenceDistribution;
             needsRetraining := needsRetraining |}
  end.

(* ================================================================== *)
(** ** Batch prediction and recommendations *)

(** [inputs.map(input => this.predict(input))]: the first input that
    fails validation throws, and nothing is returned for the batch. *)
Fixpoint batchPredict (inputs : list LoanPredictionInput)
  : M (Zod.ZodError + list PredictionResult) :=
  match inputs with
  | [] => ret (inr [])
  | input :: rest =>
      r <- predict input ;;
      match r with
      | inl err => ret (inl err)
      | inr p =>
          rs <- batchPredict rest ;;
          match rs with
          | inl err => ret (inl err)
          | inr ps => ret (inr (p :: ps))
          end
      end
  end.



(* ================================================================== *)
(** * Properties *)

(** Linear arithmetic: [rlra] over the reals, [qlra] over the rationals. *)
Ltac rlra := Lra.lra.
Ltac rnra := Lra.nra.
Ltac qlra := Lqa.lra.

(** ** Comparisons *)

Lemma Qle_bool_false (a b : Q) : Qle_bool a b = false -> b < a.
Proof.
  intros H. apply Qnot_le_lt. intros Hle.
  apply Qle_bool_iff in Hle. congruence.
Qed.

Lemma geb_true (a b : Q) : (a >=? b) = true <-> b <= a.
Proof. unfold JS.geb. apply Qle_bool_iff. Qed.

Lemma leb_true (a b : Q) : (a <=? b) = true <-> a <= b.
Proof. unfold JS.leb. apply Qle_bool_iff. Qed.

Lemma gtb_true (a b : Q) : (a >? b) = true <-> b < a.
Proof.
  unfold JS.gtb. destruct (Qle_bool a b) eqn:E; simpl; split; intros H;
    try discriminate; try reflexivity.
  - apply Qle_bool_iff in E. apply Qlt_not_le in H. contradiction.
  - now apply Qle_bool_false.
Qed.

Lemma ltb_true (a b : Q) : (a <? b) = true <-> a < b.
Proof.
  unfold JS.ltb. destruct (Qle_bool b a) eqn:E; simpl; split; intros H;
    try discriminate; try reflexivity.
  - apply Qle_bool_iff in E. apply Qlt_not_le in H. contradiction.
  - now apply Qle_bool_false.
Qed.

(** ** Validation *)

(** The domain the schema accepts, as a proposition. *)
Definition InSchemaDomain (i : LoanPredictionInput) : Prop :=
  300 <= creditScore i /\ creditScore i <= 850 /\
  0 < annualIncome i /\
  0 <= employmentLength i /\
  0 < loanAmount i /\
  In (loanPurpose i) loanPurposes /\
  0 <= debtToIncome i /\ debtToIncome i <= 1 /\
  0 <= delinquenciesLast2Years i /\
  0 <= inquiriesLast6Months i /\
  In (homeOwnership i) homeOwnerships /\
  In (verificationStatus i) verificationStatuses.

Lemma zod_min_nil f lo x : Zod.min f lo x = [] <-> lo <= x.
Proof.
  unfold Zod.min. rewrite <- geb_true.
  destruct (x >=? lo); split; intros; congruence.
Qed.

Lemma zod_max_nil f hi x : Zod.max f hi x = [] <-> x <= hi.
Proof.
  unfold Zod.max. rewrite <- leb_true.
  destruct (x <=? hi); split; intros; congruence.
Qed.

Lemma zod_positive_nil f x : Zod.positive f x = [] <-> 0 < x.
Proof.
  unfold Zod.positive. rewrite <- gtb_true.
  destruct (x >? 0); split; intros; congruence.
Qed.

Lemma zod_enum_nil f allowed x : Zod.enum f allowed x = [] <-> In x allowed.
Proof.
  unfold Zod.enum. destruct (existsb (String.eqb x) allowed) eqn:E.
  - split; [intros _ | reflexivity].
    apply existsb_exists in E. destruct E as [y [Hy Heq]].
    apply String.eqb_eq in Heq. now subst.
  - split; [discriminate | intros Hin].
    assert (existsb (String.eqb x) allowed = true) as E'.
    { apply existsb_exists. exists x. split; [assumption|].
      apply String.eqb_refl. }
    congruence.
Qed.

Lemma app_nil_iff {A} (l l' : list A) :
  (l ++ l')%list = [] <-> l = [] /\ l' = [].
Proof.
  split.
  - apply app_eq_nil.
  - intros [-> ->]. reflexivity.
Qed.

Lemma schema_nil_iff (i : LoanPredictionInput) :
  LoanPredictionInputSchema i = [] <-> InSchemaDomain i.
Proof.
  unfold LoanPredictionInputSchema, InSchemaDomain.
  repeat rewrite app_nil_iff.
  repeat rewrite zod_min_nil. repeat rewrite zod_max_nil.
  repeat rewrite zod_positive_nil. repeat rewrite zod_enum_nil.
  tauto.
Qed.

Lemma validateInput_ok (i : LoanPredictionInput) :
  InSchemaDomain i -> validateInput i = inr i.
Proof.
  intros H. apply schema_nil_iff in H. unfold validateInput. now rewrite H.
Qed.

Lemma validateInput_error (i : LoanPredictionInput) :
  ~ InSchemaDomain i ->
  validateInput i = inl (LoanPredictionInputSchema i)
  /\ LoanPredictionInputSchema i <> [].
Proof.
  intros H. rewrite <- schema_nil_iff in H. unfold validateInput.
  destruct (LoanPredictionInputSchema i); [contradiction|].
  split; [reflexivity | discriminate].
Qed.

Lemma predict_valid (i : LoanPredictionInput) (e : Env) (s : World) :
  InSchemaDomain i ->
  predict i e s = (inr (predictValidated (modelWeights (service s)) i), s).
Proof.
  intros H. unfold predict. rewrite (validateInput_ok i H). reflexivity.
Qed.

Lemma predict_invalid (i : LoanPredictionInput) (e : Env) (s : World) :
  ~ InSchemaDomain i ->
  predict i e s = (inl (LoanPredictionInputSchema i), s).
Proof.
  intros H. unfold predict.
  destruct (validateInput_error i H) as [-> _]. reflexivity.
Qed.

(** ** Concrete worlds *)

Definition env0 : Env := mkEnv (fun _ => 0) date_2024_01_15.
Definition world0 : World := mkWorld newService 0.

(** ** Section 3 of the specification, as written *)

Definition isInteger (x : Q) : Prop := x == inject_Z (Qfloor x).

(** The declared domain of an applicant profile: credit score an integer
    in 300..850, annual income a non-negative real, employment length a
    non-negative real, loan amount a positive real, debt-to-income in
    [0,1], delinquencies and inquiries non-negative integers, and the
    three enumerated fields inside their sets. *)
Definition SpecDomain (i : LoanPredictionInput) : Prop :=
  (isInteger (creditScore i) /\ 300 <= creditScore i /\ creditScore i <= 850)
  /\ 0 <= annualIncome i
  /\ 0 <= employmentLength i
  /\ 0 < loanAmount i
  /\ In (loanPurpose i) loanPurposes
  /\ (0 <= debtToIncome i /\ debtToIncome i <= 1)
  /\ (isInteger (delinquenciesLast2Years i)
      /\ 0 <= delinquenciesLast2Years i)
  /\ (isInteger (inquiriesLast6Months i) /\ 0 <= inquiriesLast6Months i)
  /\ In (homeOwnership i) homeOwnerships
  /\ In (verificationStatus i) verificationStatuses.

(** A profile of section 3 whose annual income is zero. *)
Definition zeroIncomeProfile : LoanPredictionInput := {|
  creditScore := 700; annualIncome := 0; employmentLength := 3;
  loanAmount := 10000; loanPurpose := "personal_loan";
  debtToIncome := 0.2; hasDerogatory := false;
  delinquenciesLast2Years := 0; inquiriesLast6Months := 0;
  homeOwnership := "rent"; verificationStatus := "verified" |}.

(** A profile whose credit score is not an integer. *)
Definition fractionalCreditProfile : LoanPredictionInput := {|
  creditScore := 700.5; annualIncome := 60000; employmentLength := 3;
  loanAmount := 10000; loanPurpose := "personal_loan";
  debtToIncome := 0.2; hasDerogatory := false;
  delinquenciesLast2Years := 0; inquiriesLast6Months := 0;
  homeOwnership := "rent"; verificationStatus := "verified" |}.

(** Decides a closed instance of a rational comparison or of list
    membership. *)
Ltac closed_fact :=
  match goal with
  | |- _ <= _ => apply Qle_bool_iff; reflexivity
  | |- _ < _ => reflexivity
  | |- _ == _ => reflexivity
  | |- isInteger _ => reflexivity
  | |- In _ _ => simpl; tauto
  end.

Ltac closed_domain :=
  repeat match goal with |- _ /\ _ => split end; closed_fact.

(** C2, as stated, fails in both directions: a profile of section 3 with
    annual income 0 is rejected, and a profile with the non-integer credit
    score 700.5, outside section 3, is scored. *)
Lemma section3_domain_is_not_the_schema :
  (SpecDomain zeroIncomeProfile
   /\ predict zeroIncomeProfile env0 world0
      = (inl [Zod.mkIssue "annualIncome" Zod.too_small], world0))
  /\ (~ SpecDomain fractionalCreditProfile
      /\ exists r, predict fractionalCreditProfile env0 world0
                   = (inr r, world0)).
Proof.
  split; split.
  - unfold SpecDomain. closed_domain.
  - reflexivity.
  - intros [[Hint _] _]. unfold isInteger in Hint. vm_compute in Hint.
    discriminate Hint.
  - eexists. apply predict_valid. unfold InSchemaDomain. closed_domain.
Qed.

Lemma too_big_creditScore_cited (i : LoanPredictionInput) :
  850 < creditScore i ->
  In (Zod.mkIssue "creditScore" Zod.too_big) (LoanPredictionInputSchema i).
Proof.
  intros H. unfold LoanPredictionInputSchema.
  apply in_or_app. left. apply in_or_app. right.
  unfold Zod.max, JS.leb.
  destruct (Qle_bool (creditScore i) 850) eqn:E.
  - apply Qle_bool_iff in E. qlra.
  - left. reflexivity.
Qed.

(** C2 (amended): [predict] throws a [ZodError] exactly when the input is
    outside the domain of [LoanPredictionInputSchema] (credit score any
    number in 300..850, annual income and loan amount strictly positive,
    employment length, delinquencies and inquiries non-negative numbers,
    debt-to-income in [0,1], the three enumerated fields in their sets);
    inside that domain it returns a result and leaves the service
    unchanged; a credit score above 850 is reported as a [too_big] issue
    on the [creditScore] field. *)
Theorem predict_fails_iff_outside_schema
    (i : LoanPredictionInput) (e : Env) (s : World) :
  (InSchemaDomain i -> exists r, predict i e s = (inr r, s))
  /\ ((exists err, predict i e s = (inl err, s)) <-> ~ InSchemaDomain i)
  /\ (850 < creditScore i ->
      exists err, predict i e s = (inl err, s)
                  /\ In (Zod.mkIssue "creditScore" Zod.too_big) err).
Proof.
  split; [|split].
  - intros H. eexists. now apply predict_valid.
  - split.
    + intros [err Herr] H. rewrite (predict_valid i e s H) in Herr.
      discriminate Herr.
    + intros H. eexists. now apply predict_invalid.
  - intros H. exists (LoanPredictionInputSchema i). split.
    + apply predict_invalid. unfold InSchemaDomain. intros Hd.
      destruct Hd as (_ & Hle & _). qlra.
    + now apply too_big_creditScore_cited.
Qed.

(** The profile of scenario C: credit score 851. *)
Definition scenarioC : LoanPredictionInput := {|
  creditScore := 851; annualIncome := 60000; employmentLength := 3;
  loanAmount := 10000; loanPurpose := "personal_loan";
  debtToIncome := 0.2; hasDerogatory := false;
  delinquenciesLast2Years := 0; inquiriesLast6Months := 0;
  homeOwnership := "rent"; verificationStatus := "verified" |}.

Lemma predict_fails_iff_outside_schema_witness :
  (exists r, predict fractionalCreditProfile env0 world0 = (inr r, world0))
  /\ (exists err, predict scenarioC env0 world0 = (inl err, world0)
                  /\ In (Zod.mkIssue "creditScore" Zod.too_big) err).
Proof.
  split.
  - apply (proj1 (predict_fails_iff_outside_schema
                    fractionalCreditProfile env0 world0)).
    unfold InSchemaDomain. closed_domain.
  - apply (proj2 (proj2 (predict_fails_iff_outside_schema
                           scenarioC env0 world0))).
    reflexivity.
Defined.

(** ** The sigmoid and the decision *)

Lemma half_R : (0.5 = 1 / 2)%R.
Proof. unfold Q2R; simpl. rlra. Qed.

Lemma sigmoid_ge_half (x : R) :
  (1 / (1 + exp (- x)) >= 0.5 <-> 0 <= x)%R.
Proof.
  rewrite half_R.
  pose proof (exp_pos (- x)) as Ht.
  assert (0 < / (1 + exp (- x)))%R as Hu by (apply Rinv_0_lt_compat; rlra).
  assert (/ (1 + exp (- x)) * (1 + exp (- x)) = 1)%R as Hm
    by (apply Rinv_l; rlra).
  unfold Rdiv. rewrite Rmult_1_l.
  set (t := exp (- x)) in *. set (u := (/ (1 + t))%R) in *.
  split; intros H.
  - destruct (Rle_or_lt 0 x) as [|Hneg]; [assumption|].
    assert (exp 0 < t)%R as Hlt by (apply exp_increasing; rlra).
    rewrite exp_0 in Hlt. rnra.
  - assert (t <= 1)%R as Hle.
    { destruct (Rle_or_lt t 1) as [|Hgt]; [assumption|].
      rewrite <- exp_0 in Hgt. apply exp_lt_inv in Hgt. rlra. }
    rnra.
Qed.

Lemma sigmoid_bounds (x : R) : (0 < 1 / (1 + exp (- x)) < 1)%R.
Proof.
  pose proof (exp_pos (- x)) as Ht.
  assert (0 < / (1 + exp (- x)))%R as Hu by (apply Rinv_0_lt_compat; rlra).
  assert (/ (1 + exp (- x)) * (1 + exp (- x)) = 1)%R as Hm
    by (apply Rinv_l; rlra).
  unfold Rdiv. rewrite Rmult_1_l.
  set (t := exp (- x)) in *. set (u := (/ (1 + t))%R) in *.
  split; [assumption | rnra].
Qed.

Lemma normalized_as_product (score : Q) :
  (score - 650) / 200 == (score - 650) * (1 # 200).
Proof. reflexivity. Qed.

Lemma Q2R_nonneg (q : Q) : (0 <= Q2R q)%R <-> 0 <= q.
Proof.
  rewrite <- RMicromega.Q2R_0. split; [apply Rle_Qle | apply Qle_Rle].
Qed.

Lemma probability_ge_half (score : Q) :
  (scoreToTprobability score >= 0.5)%R <-> 650 <= score.
Proof.
  unfold scoreToTprobability. cbv zeta.
  rewrite sigmoid_ge_half, Q2R_nonneg, normalized_as_product.
  split; intros; qlra.
Qed.


Lemma decide_approved (p : R) : decide p = approved <-> (p >= 0.5)%R.
Proof.
  unfold decide. destruct (Rge_dec p 0.5); split; intros H;
    try reflexivity; try assumption; try discriminate; contradiction.
Qed.

(** The decision as a comparison of rationals, which computes. *)
Lemma decide_score (score : Q) :
  decide (scoreToTprobability score)
  = if score >=? 650 then approved else denied.
Proof.
  destruct (score >=? 650) eqn:E.
  - apply decide_approved, probability_ge_half, geb_true, E.
  - destruct (decide (scoreToTprobability score)) eqn:D; [|reflexivity].
    apply decide_approved, probability_ge_half, geb_true in D. congruence.
Qed.

(** A valid profile whose score under the constructor's weights is
    exactly 650. *)
Definition score650Profile : LoanPredictionInput := {|
  creditScore := 800; annualIncome := 120000; employmentLength := 10;
  loanAmount := 10000; loanPurpose := "home_loan";
  debtToIncome := 0.1; hasDerogatory := false;
  delinquenciesLast2Years := 0; inquiriesLast6Months := 2;
  homeOwnership := "own"; verificationStatus := "not_verified" |}.

Lemma predictValidated_from_score
    (w : FeatureImportance) (i : LoanPredictionInput) :
  predictValidated w i = predictFromScore w i (clampedScore w i).
Proof. reflexivity. Qed.



(** ** Ranges *)

Lemma clampedScore_bounds (w : FeatureImportance) (i : LoanPredictionInput) :
  0 <= clampedScore w i /\ clampedScore w i <= 1000.
Proof.
  unfold clampedScore. split.
  - apply Q.le_max_l.
  - apply Q.max_lub; [apply Qle_bool_iff; reflexivity | apply Q.le_min_l].
Qed.

Lemma round_mono (x y : Q) : x <= y -> (JS.round x <= JS.round y)%Z.
Proof.
  intros H. unfold JS.round. apply Qfloor_resp_le. qlra.
Qed.

Lemma round_bounds (x : Q) :
  0 <= x -> x <= 1000 -> (0 <= JS.round x <= 1000)%Z.
Proof.
  intros H0 H1. split.
  - change 0%Z with (JS.round 0). now apply round_mono.
  - change 1000%Z with (JS.round 1000). now apply round_mono.
Qed.

(** C3: for a valid profile the returned score lies in [0,1000] (it is
    the rounding of the weighted sum times 1000, clamped to that
    interval) and the returned probability lies in [0,1]. *)
Theorem score_and_probability_ranges
    (i : LoanPredictionInput) (e : Env) (s : World) :
  InSchemaDomain i ->
  exists r,
    predict i e s = (inr r, s)
    /\ score r
       = JS.round (Qmax 0 (Qmin 1000 (rawScore (modelWeights (service s)) i)))
    /\ (0 <= score r <= 1000)%Z
    /\ (0 <= probability r <= 1)%R.
Proof.
  intros H. eexists. split; [now apply predict_valid|].
  cbn [probability score predictValidated]. split; [reflexivity|].
  split.
  - destruct (clampedScore_bounds (modelWeights (service s)) i).
    now apply round_bounds.
  - unfold scoreToTprobability. cbv zeta.
    match goal with |- context [exp (- ?x)] =>
      pose proof (sigmoid_bounds x) end.
    rlra.
Qed.

Lemma score_and_probability_ranges_witness :
  exists r,
    predict score650Profile env0 world0 = (inr r, world0)
    /\ (0 <= score r <= 1000)%Z
    /\ (0 <= probability r <= 1)%R.
Proof.
  destruct (score_and_probability_ranges score650Profile env0 world0)
    as (r & Hp & _ & Hs & Hpr).
  - unfold InSchemaDomain. closed_domain.
  - exists r. repeat split; solve [exact Hp | apply Hs | apply Hpr].
Defined.

(** ** The two concrete scenarios *)

(** Scenario A; the loan purpose is not fixed by the scenario. *)
Definition scenarioA (purpose : string) : LoanPredictionInput := {|
  creditScore := 780; annualIncome := 90000; employmentLength := 6;
  loanAmount := 15000; loanPurpose := purpose;
  debtToIncome := 0.18; hasDerogatory := false;
  delinquenciesLast2Years := 0; inquiriesLast6Months := 1;
  homeOwnership := "own"; verificationStatus := "verified" |}.

(** Scenario B; the loan purpose is not fixed by the scenario. *)
Definition scenarioB (purpose : string) : LoanPredictionInput := {|
  creditScore := 540; annualIncome := 22000; employmentLength := 0.5;
  loanAmount := 20000; loanPurpose := purpose;
  debtToIncome := 0.55; hasDerogatory := true;
  delinquenciesLast2Years := 3; inquiriesLast6Months := 6;
  homeOwnership := "rent"; verificationStatus := "not_verified" |}.

Ltac scenario_domain :=
  unfold InSchemaDomain;
  repeat match goal with |- _ /\ _ => split end;
  first [assumption | closed_fact].

(** C7: scenario A is approved with score 795 (above 700) and medium
    confidence, on a freshly constructed service. *)
Theorem scenarioA_approved (purpose : string) (e : Env) (n : nat) :
  In purpose loanPurposes ->
  exists r,
    predict (scenarioA purpose) e (mkWorld newService n)
    = (inr r, mkWorld newService n)
    /\ prediction r = approved
    /\ (700 < score r)%Z
    /\ (confidence r = high \/ confidence r = medium).
Proof.
  intros Hp. eexists. split; [apply predict_valid; scenario_domain|].
  cbn [prediction score confidence predictValidated service modelWeights
       newService].
  rewrite decide_score. split; [reflexivity|]. split; [reflexivity|].
  right. reflexivity.
Qed.

Lemma scenarioA_approved_witness :
  exists r,
    predict (scenarioA "auto_loan") env0 world0 = (inr r, world0)
    /\ prediction r = approved
    /\ (700 < score r)%Z
    /\ (confidence r = high \/ confidence r = medium).
Proof.
  apply (scenarioA_approved "auto_loan" env0 0%nat). simpl. tauto.
Defined.

(** C6, as stated, fails: the risk-factor list of scenario B does not
    contain the sentence quoted by the claim (that sentence belongs to the
    reasons list). *)
Lemma scenarioB_risk_factors_lack_reason_text :
  exists r,
    predict (scenarioB "personal_loan") env0 world0 = (inr r, world0)
    /\ ~ In "Derogatory marks on credit report raise concerns"
           (riskFactors r).
Proof.
  eexists. split; [apply predict_valid; unfold InSchemaDomain; closed_domain|].
  cbn [riskFactors predictValidated]. vm_compute.
  intros H. repeat (destruct H as [H|H]; [discriminate H|]). exact H.
Qed.

(** C6 (amended): scenario B is denied; its risk-factor list has eight
    entries, among them "Derogatory credit marks"; the sentence
    "Derogatory marks on credit report raise concerns" is an entry of its
    reasons list. *)
Theorem scenarioB_denied (purpose : string) (e : Env) (n : nat) :
  In purpose loanPurposes ->
  exists r,
    predict (scenarioB purpose) e (mkWorld newService n)
    = (inr r, mkWorld newService n)
    /\ prediction r = denied
    /\ riskFactors r
       = ["Below-average credit score"; "High debt-to-income ratio";
          "Derogatory credit marks"; "Recent payment delinquencies";
          "Multiple recent credit inquiries"; "Short employment history";
          "Lower income level"; "Unverified income"]
    /\ In "Derogatory credit marks" (riskFactors r)
    /\ (1 < List.length (riskFactors r))%nat
    /\ In "Derogatory marks on credit report raise concerns" (reasons r).
Proof.
  intros Hp. eexists. split; [apply predict_valid; scenario_domain|].
  cbn [prediction reasons riskFactors predictValidated service modelWeights
       newService].
  rewrite decide_score.
  split; [reflexivity|]. split; [reflexivity|].
  split; [vm_compute; tauto|]. split; [vm_compute; lia|].
  vm_compute. tauto.
Qed.

Lemma scenarioB_denied_witness :
  exists r,
    predict (scenarioB "personal_loan") env0 world0 = (inr r, world0)
    /\ prediction r = denied
    /\ In "Derogatory credit marks" (riskFactors r)
    /\ In "Derogatory marks on credit report raise concerns" (reasons r).
Proof.
  destruct (scenarioB_denied "personal_loan" env0 0%nat)
    as (r & Hp & Hd & _ & Hin & _ & Hre).
  - simpl. tauto.
  - exists r. repeat split; assumption.
Defined.

(* ================================================================== *)
(** ** Retraining and the weight table *)

(** [Math.random()] returns a number in [0,1). *)
Definition RandomsInRange (e : Env) : Prop :=
  forall n, 0 <= randoms e n /\ randoms e n < 1.

(** The first [forEach] as a function of the ten draws it consumes. *)
Definition adjusted (r currentWeight : Q) : Q :=
  Qmax 0 (currentWeight + (r - 0.5) * weightAdjustment).

Definition perturbWith (r : nat -> Q) (w : FeatureImportance)
  : FeatureImportance := {|
  w_creditScore := adjusted (r 0%nat) (w_creditScore w);
  w_debtToIncome := adjusted (r 1%nat) (w_debtToIncome w);
  w_annualIncome := adjusted (r 2%nat) (w_annualIncome w);
  w_employmentLength := adjusted (r 3%nat) (w_employmentLength w);
  w_hasDerogatory := adjusted (r 4%nat) (w_hasDerogatory w);
  w_delinquenciesLast2Years :=
    adjusted (r 5%nat) (w_delinquenciesLast2Years w);
  w_inquiriesLast6Months := adjusted (r 6%nat) (w_inquiriesLast6Months w);
  w_loanAmount := adjusted (r 7%nat) (w_loanAmount w);
  w_homeOwnership := adjusted (r 8%nat) (w_homeOwnership w);
  w_verificationStatus := adjusted (r 9%nat) (w_verificationStatus w) |}.

Lemma perturbWeights_run (w : FeatureImportance) (e : Env) (s : World) :
  perturbWeights w e s
  = (perturbWith (fun j => randoms e (j + drawn s)%nat) w,
     mkWorld (service s) (10 + drawn s)).
Proof. reflexivity. Qed.

(** What a call of [retrainModel] does to the weights: ten consecutive
    draws perturb them, then they are normalised. *)
Lemma retrainModel_run
    (td : option (list LoanApplication)) (e : Env) (s : World) :
  exists (k : nat) (m' : ModelMetrics),
    let w' := perturbWith (fun j => randoms e (j + k)%nat)
                (modelWeights (service s)) in
    retrainModel td e s
    = match normalizeWeights w' with
      | Some w'' => (Some m', mkWorld (mkService w'' m') (10 + k))
      | None => (None, mkWorld (mkService w' m') (10 + k))
      end.
Proof.
  destruct s as [[w m] n].
  destruct td as [[|a l]|];
    [exists (5 + n)%nat | exists (4 + n)%nat | exists (5 + n)%nat];
    eexists;
    cbv beta iota zeta delta
      [retrainModel bind getMetrics random getTime newTrainingSize
       setMetrics getWeights setWeights ret perturbWeights adjustWeight
       service drawn modelWeights metrics Nat.add perturbWith adjusted];
    match goal with |- context [normalizeWeights ?x] =>
      destruct (normalizeWeights x) end; reflexivity.
Qed.

Definition WeightsNonneg (w : FeatureImportance) : Prop :=
  0 <= w_creditScore w /\ 0 <= w_debtToIncome w /\ 0 <= w_annualIncome w /\
  0 <= w_employmentLength w /\ 0 <= w_hasDerogatory w /\
  0 <= w_delinquenciesLast2Years w /\ 0 <= w_inquiriesLast6Months w /\
  0 <= w_loanAmount w /\ 0 <= w_homeOwnership w /\
  0 <= w_verificationStatus w.

Lemma totalWeight_unfold (w : FeatureImportance) :
  totalWeight w
  = 0 + w_creditScore w + w_debtToIncome w + w_annualIncome w
    + w_employmentLength w + w_hasDerogatory w
    + w_delinquenciesLast2Years w + w_inquiriesLast6Months w
    + w_loanAmount w + w_homeOwnership w + w_verificationStatus w.
Proof. reflexivity. Qed.

Lemma adjusted_nonneg (r x : Q) : 0 <= adjusted r x.
Proof. apply Q.le_max_l. Qed.

Lemma adjusted_lower (r x : Q) : 0 <= r -> x - 0.025 <= adjusted r x.
Proof.
  intros Hr. unfold adjusted, weightAdjustment.
  eapply Qle_trans; [|apply Q.le_max_r]. qlra.
Qed.

Lemma perturbWith_nonneg (r : nat -> Q) (w : FeatureImportance) :
  WeightsNonneg (perturbWith r w).
Proof.
  unfold WeightsNonneg, perturbWith; cbn.
  repeat split; apply adjusted_nonneg.
Qed.

Lemma perturbWith_total (r : nat -> Q) (w : FeatureImportance) :
  (forall j, 0 <= r j) ->
  totalWeight w - 0.25 <= totalWeight (perturbWith r w).
Proof.
  intros Hr. rewrite !totalWeight_unfold. unfold perturbWith; cbn.
  pose proof (adjusted_lower (r 0%nat) (w_creditScore w) (Hr _)).
  pose proof (adjusted_lower (r 1%nat) (w_debtToIncome w) (Hr _)).
  pose proof (adjusted_lower (r 2%nat) (w_annualIncome w) (Hr _)).
  pose proof (adjusted_lower (r 3%nat) (w_employmentLength w) (Hr _)).
  pose proof (adjusted_lower (r 4%nat) (w_hasDerogatory w) (Hr _)).
  pose proof (adjusted_lower (r 5%nat) (w_delinquenciesLast2Years w) (Hr _)).
  pose proof (adjusted_lower (r 6%nat) (w_inquiriesLast6Months w) (Hr _)).
  pose proof (adjusted_lower (r 7%nat) (w_loanAmount w) (Hr _)).
  pose proof (adjusted_lower (r 8%nat) (w_homeOwnership w) (Hr _)).
  pose proof (adjusted_lower (r 9%nat) (w_verificationStatus w) (Hr _)).
  qlra.
Qed.

Lemma div_nonneg (a t : Q) : 0 <= a -> 0 < t -> 0 <= a / t.
Proof. intros Ha Ht. apply Qle_shift_div_l; [assumption | qlra]. Qed.

(** Normalisation of non-negative weights with a positive total succeeds
    and yields non-negative weights of total one. *)
Lemma normalizeWeights_ok (w : FeatureImportance) :
  WeightsNonneg w -> 0 < totalWeight w ->
  exists w', normalizeWeights w = Some w'
             /\ WeightsNonneg w' /\ totalWeight w' == 1.
Proof.
  intros Hn Ht. unfold normalizeWeights. cbv zeta.
  destruct (Qeq_bool (totalWeight w) 0) eqn:E.
  - apply Qeq_bool_iff in E. qlra.
  - eexists. split; [reflexivity|]. split.
    + unfold WeightsNonneg in *; cbn.
      destruct Hn as (?&?&?&?&?&?&?&?&?&?).
      repeat split; now apply div_nonneg.
    + rewrite (totalWeight_unfold {| w_creditScore := _ |}). cbn.
      rewrite totalWeight_unfold in *.
      set (t := 0 + w_creditScore w + w_debtToIncome w + w_annualIncome w
                + w_employmentLength w + w_hasDerogatory w
                + w_delinquenciesLast2Years w + w_inquiriesLast6Months w
                + w_loanAmount w + w_homeOwnership w
                + w_verificationStatus w) in *.
      assert (~ t == 0) as Hnz by (intros Hz; qlra).
      assert (forall a b, a / t + b / t == (a + b) / t) as Hadd
        by (intros; field; exact Hnz).
      assert (0 == 0 / t) as -> by (field; exact Hnz).
      rewrite !Hadd. fold t. field. exact Hnz.
Qed.

(** The service objects that exist at run time: the constructed one, and
    whatever a call of [retrainModel] that kept the weights numeric leaves
    behind ([predict] and [calculateDrift] do not write). *)
Inductive Reachable : LoanPredictionService -> Prop :=
| reach_new : Reachable newService
| reach_retrain (td : option (list LoanApplication)) (e : Env)
    (s s' : World) (m : ModelMetrics) :
    Reachable (service s) ->
    RandomsInRange e ->
    retrainModel td e s = (Some m, s') ->
    Reachable (service s').

(** The invariant of the weight table. *)
Definition WeightsInv (w : FeatureImportance) : Prop :=
  WeightsNonneg w /\ 1 <= totalWeight w.

Lemma initialWeights_inv : WeightsInv initialWeights.
Proof.
  split.
  - unfold WeightsNonneg. closed_domain.
  - apply Qle_bool_iff. reflexivity.
Qed.

(** One retraining step from a table satisfying the invariant: it
    succeeds, and the new table is non-negative with total one. *)
Lemma retrainModel_step
    (td : option (list LoanApplication)) (e : Env) (s : World) :
  WeightsInv (modelWeights (service s)) ->
  RandomsInRange e ->
  exists m s',
    retrainModel td e s = (Some m, s')
    /\ WeightsNonneg (modelWeights (service s'))
    /\ totalWeight (modelWeights (service s')) == 1.
Proof.
  intros [Hn Ht] Hr.
  destruct (retrainModel_run td e s) as (k & m' & Hrun). cbv zeta in Hrun.
  set (r := fun j => randoms e (j + k)%nat) in *.
  assert (forall j, 0 <= r j) as Hr0 by (intros j; apply Hr).
  pose proof (perturbWith_total r (modelWeights (service s)) Hr0) as Htot.
  destruct (normalizeWeights_ok (perturbWith r (modelWeights (service s))))
    as (w'' & Hsome & Hn'' & Hsum).
  - apply perturbWith_nonneg.
  - qlra.
  - rewrite Hsome in Hrun. do 2 eexists. split; [exact Hrun|].
    cbn. split; assumption.
Qed.

Lemma reachable_inv (svc : LoanPredictionService) :
  Reachable svc -> WeightsInv (modelWeights svc).
Proof.
  induction 1 as [|td e s s' m Hreach IH Hr Hrun].
  - apply initialWeights_inv.
  - destruct (retrainModel_step td e s IH Hr) as (m0 & s0 & Hrun0 & Hn & Hs).
    rewrite Hrun in Hrun0. injection Hrun0 as _ <-.
    split; [assumption | qlra].
Qed.

(** X13: After any retraining of a run-time service, with any outcome of the
    draws, the call returns metrics and the weights sum to one. *)
Lemma retrainModel_restores_unit_sum
    (td : option (list LoanApplication)) (e : Env) (s : World) :
  Reachable (service s) ->
  RandomsInRange e ->
  exists m s',
    retrainModel td e s = (Some m, s')
    /\ Reachable (service s')
    /\ totalWeight (modelWeights (service s')) == 1.
Proof.
  intros Hreach Hr.
  destruct (retrainModel_step td e s (reachable_inv _ Hreach) Hr)
    as (m & s' & Hrun & _ & Hsum).
  exists m, s'. split; [exact Hrun|]. split; [|exact Hsum].
  exact (reach_retrain td e s s' m Hreach Hr Hrun).
Qed.

(** C5: the weights installed by the constructor sum to 1.01, not to 1.0;
    the table is off by the two entries of 0.005 until the first
    retraining renormalises it. *)
Theorem constructor_weights_sum :
  totalWeight (modelWeights newService) == 1.01
  /\ ~ totalWeight (modelWeights newService) == 1.0.
Proof.
  split.
  - reflexivity.
  - intros H. vm_compute in H. discriminate H.
Qed.

(* ================================================================== *)
(** ** Monotonicity *)

(** Profiles that differ from [i] in one field. *)
Definition with_creditScore (x : Q) (i : LoanPredictionInput)
  : LoanPredictionInput :=
  mkInput x (annualIncome i) (employmentLength i) (loanAmount i)
    (loanPurpose i) (debtToIncome i) (hasDerogatory i)
    (delinquenciesLast2Years i) (inquiriesLast6Months i) (homeOwnership i)
    (verificationStatus i).

Definition with_delinquencies (x : Q) (i : LoanPredictionInput)
  : LoanPredictionInput :=
  mkInput (creditScore i) (annualIncome i) (employmentLength i)
    (loanAmount i) (loanPurpose i) (debtToIncome i) (hasDerogatory i)
    x (inquiriesLast6Months i) (homeOwnership i) (verificationStatus i).

Definition with_debtToIncome (x : Q) (i : LoanPredictionInput)
  : LoanPredictionInput :=
  mkInput (creditScore i) (annualIncome i) (employmentLength i)
    (loanAmount i) (loanPurpose i) x (hasDerogatory i)
    (delinquenciesLast2Years i) (inquiriesLast6Months i) (homeOwnership i)
    (verificationStatus i).

(** Walks down a chain of comparisons, one band at a time. *)
Ltac split_band :=
  repeat match goal with
  | |- context [Qle_bool ?a ?b] =>
      let E := fresh "E" in
      destruct (Qle_bool a b) eqn:E;
      [apply Qle_bool_iff in E | apply Qle_bool_false in E];
      cbv beta iota
  end.

Lemma calculateCreditScoreComponent_mono (a b : Q) :
  a <= b ->
  calculateCreditScoreComponent a <= calculateCreditScoreComponent b.
Proof.
  intros H. unfold calculateCreditScoreComponent, JS.geb.
  split_band; qlra.
Qed.

Lemma calculateDebtToIncomeComponent_antimono (a b : Q) :
  a <= b ->
  calculateDebtToIncomeComponent b <= calculateDebtToIncomeComponent a.
Proof.
  intros H. unfold calculateDebtToIncomeComponent, JS.leb.
  split_band; qlra.
Qed.

Lemma rawScore_creditScore_mono
    (w : FeatureImportance) (i : LoanPredictionInput) (x : Q) :
  0 <= w_creditScore w -> creditScore i <= x ->
  rawScore w i <= rawScore w (with_creditScore x i).
Proof.
  intros Hw Hx. unfold rawScore. cbv zeta.
  cbn [with_creditScore creditScore annualIncome employmentLength loanAmount
       loanPurpose debtToIncome hasDerogatory delinquenciesLast2Years
       inquiriesLast6Months homeOwnership verificationStatus].
  pose proof (Qmult_le_compat_r _ _ (w_creditScore w)
                (calculateCreditScoreComponent_mono _ _ Hx) Hw).
  qlra.
Qed.

Lemma rawScore_delinquencies_antimono
    (w : FeatureImportance) (i : LoanPredictionInput) (x : Q) :
  0 <= w_delinquenciesLast2Years w -> delinquenciesLast2Years i <= x ->
  rawScore w (with_delinquencies x i) <= rawScore w i.
Proof.
  intros Hw Hx. unfold rawScore. cbv zeta.
  cbn [with_delinquencies creditScore annualIncome employmentLength
       loanAmount loanPurpose debtToIncome hasDerogatory
       delinquenciesLast2Years inquiriesLast6Months homeOwnership
       verificationStatus].
  assert (x * -10 <= delinquenciesLast2Years i * -10) as Hp by qlra.
  pose proof (Qmult_le_compat_r _ _ (w_delinquenciesLast2Years w) Hp Hw).
  qlra.
Qed.

Lemma rawScore_debtToIncome_antimono
    (w : FeatureImportance) (i : LoanPredictionInput) (x : Q) :
  0 <= w_debtToIncome w -> debtToIncome i <= x ->
  rawScore w (with_debtToIncome x i) <= rawScore w i.
Proof.
  intros Hw Hx. unfold rawScore. cbv zeta.
  cbn [with_debtToIncome creditScore annualIncome employmentLength
       loanAmount loanPurpose debtToIncome hasDerogatory
       delinquenciesLast2Years inquiriesLast6Months homeOwnership
       verificationStatus].
  pose proof (Qmult_le_compat_r _ _ (w_debtToIncome w)
                (calculateDebtToIncomeComponent_antimono _ _ Hx) Hw).
  qlra.
Qed.

Lemma clampedScore_mono (w : FeatureImportance) (i i' : LoanPredictionInput) :
  rawScore w i <= rawScore w i' -> clampedScore w i <= clampedScore w i'.
Proof.
  intros H. unfold clampedScore.
  apply Q.max_le_compat_l, Q.min_le_compat_l, H.
Qed.

(** Two valid profiles ordered by raw score are scored in that order,
    before and after rounding. *)
Lemma predict_score_le
    (e : Env) (s : World) (i i' : LoanPredictionInput) :
  InSchemaDomain i -> InSchemaDomain i' ->
  rawScore (modelWeights (service s)) i
  <= rawScore (modelWeights (service s)) i' ->
  exists r r',
    predict i e s = (inr r, s) /\ predict i' e s = (inr r', s)
    /\ clampedScore (modelWeights (service s)) i
       <= clampedScore (modelWeights (service s)) i'
    /\ (score r <= score r')%Z.
Proof.
  intros Hi Hi' Hraw. do 2 eexists.
  split; [now apply predict_valid|]. split; [now apply predict_valid|].
  pose proof (clampedScore_mono _ _ _ Hraw) as Hc. split; [exact Hc|].
  cbn [score predictValidated]. now apply round_mono.
Qed.

(** C4: on every run-time service and for valid profiles that differ in
    one field only, a higher credit score never lowers the score, and a
    higher delinquency count or a higher debt-to-income ratio never raises
    it (for the clamped score and for the rounded score returned). *)
Theorem score_monotone
    (e : Env) (s : World) (i : LoanPredictionInput) (x : Q) :
  Reachable (service s) ->
  InSchemaDomain i ->
  (creditScore i <= x -> InSchemaDomain (with_creditScore x i) ->
   exists r r',
     predict i e s = (inr r, s)
     /\ predict (with_creditScore x i) e s = (inr r', s)
     /\ clampedScore (modelWeights (service s)) i
        <= clampedScore (modelWeights (service s)) (with_creditScore x i)
     /\ (score r <= score r')%Z)
  /\ (delinquenciesLast2Years i <= x ->
      InSchemaDomain (with_delinquencies x i) ->
      exists r' r,
        predict (with_delinquencies x i) e s = (inr r', s)
        /\ predict i e s = (inr r, s)
        /\ clampedScore (modelWeights (service s)) (with_delinquencies x i)
           <= clampedScore (modelWeights (service s)) i
        /\ (score r' <= score r)%Z)
  /\ (debtToIncome i <= x -> InSchemaDomain (with_debtToIncome x i) ->
      exists r' r,
        predict (with_debtToIncome x i) e s = (inr r', s)
        /\ predict i e s = (inr r, s)
        /\ clampedScore (modelWeights (service s)) (with_debtToIncome x i)
           <= clampedScore (modelWeights (service s)) i
        /\ (score r' <= score r)%Z).
Proof.
  intros Hreach Hi.
  destruct (reachable_inv _ Hreach) as [Hn _].
  destruct Hn as (Hcs & Hdti & _ & _ & _ & Hdel & _).
  split; [|split]; intros Hx Hi'; apply predict_score_le; try assumption.
  - now apply rawScore_creditScore_mono.
  - now apply rawScore_delinquencies_antimono.
  - now apply rawScore_debtToIncome_antimono.
Qed.

(** Scenario D: credit score 749 against 750, everything else equal. *)
Definition scenarioD749 : LoanPredictionInput := {|
  creditScore := 749; annualIncome := 60000; employmentLength := 3;
  loanAmount := 10000; loanPurpose := "personal_loan";
  debtToIncome := 0.2; hasDerogatory := false;
  delinquenciesLast2Years := 0; inquiriesLast6Months := 0;
  homeOwnership := "rent"; verificationStatus := "verified" |}.

Lemma score_monotone_witness :
  exists r r',
    predict scenarioD749 env0 world0 = (inr r, world0)
    /\ predict (with_creditScore 750 scenarioD749) env0 world0
       = (inr r', world0)
    /\ (score r <= score r')%Z.
Proof.
  destruct (proj1 (score_monotone env0 world0 scenarioD749 750
                     reach_new ltac:(unfold InSchemaDomain; closed_domain)))
    as (r & r' & H1 & H2 & _ & H3).
  - closed_fact.
  - unfold InSchemaDomain. closed_domain.
  - exists r, r'. repeat split; assumption.
Defined.

(* ================================================================== *)
(** ** Determinism *)

(** C8: [predict] reads the weight table and nothing else, and writes
    nothing: two successive calls on the same profile return the same
    result and leave the world as it was, whatever the random source and
    the clock are; a service with the same weights but other metrics and
    another position in the random sequence returns the same result. *)
Theorem predict_deterministic
    (i : LoanPredictionInput) (e1 e2 : Env) (s : World)
    (m' : ModelMetrics) (n' : nat) :
  (let (r1, s1) := predict i e1 s in
   let (r2, s2) := predict i e2 s1 in
   r1 = r2 /\ s1 = s /\ s2 = s)
  /\ fst (predict i e2
            (mkWorld (mkService (modelWeights (service s)) m') n'))
     = fst (predict i e1 s).
Proof.
  unfold predict. destruct (validateInput i) as [err|v]; cbn.
  - repeat split.
  - repeat split.
Qed.

(* ================================================================== *)
(** ** Conversion of stored applications *)

(** The application with every column null. *)
Definition emptyApplication : LoanApplication :=
  mkApplication None None None None None None None None None None None.

Lemma or_num_default (x : option Q) (d : Q) :
  JS.truthy_num x = false -> JS.or_num x d = d.
Proof.
  destruct x as [v|]; cbn; [|reflexivity].
  destruct (Qeq_bool v 0); [reflexivity | discriminate].
Qed.

Lemma or_str_default (x : option string) (d : string) :
  JS.truthy_str x = false -> JS.or_str x d = d.
Proof.
  destruct x as [v|]; cbn; [|reflexivity].
  destruct (String.eqb v EmptyString); [reflexivity | discriminate].
Qed.

(** C9: the converter is a total function that replaces every null or
    falsy column by a fixed default (650, 50000, 0, 10000,
    "personal_loan", "rent", "not_verified", debt-to-income 0 when the
    monthly debt payment or the annual income is missing); the
    application with every column null becomes a profile that [predict]
    accepts. *)
Theorem convert_substitutes_defaults (a : LoanApplication) :
  (JS.truthy_num (credit_score a) = false ->
   creditScore (convertLoanApplicationToPredictionInput a) = 650)
  /\ (JS.truthy_num (annual_income a) = false ->
      annualIncome (convertLoanApplicationToPredictionInput a) = 50000)
  /\ (JS.truthy_num (employment_length a) = false ->
      employmentLength (convertLoanApplicationToPredictionInput a) = 0)
  /\ (JS.truthy_num (loan_amount a) = false ->
      loanAmount (convertLoanApplicationToPredictionInput a) = 10000)
  /\ (JS.truthy_str (loan_purpose a) = false ->
      loanPurpose (convertLoanApplicationToPredictionInput a)
      = "personal_loan")
  /\ (JS.truthy_str (home_ownership a) = false ->
      homeOwnership (convertLoanApplicationToPredictionInput a) = "rent")
  /\ (JS.truthy_str (verification_status a) = false ->
      verificationStatus (convertLoanApplicationToPredictionInput a)
      = "not_verified")
  /\ (JS.truthy_num (monthly_debt_payment a) = false
      \/ JS.truthy_num (annual_income a) = false ->
      debtToIncome (convertLoanApplicationToPredictionInput a) = 0)
  /\ (exists r,
        predict (convertLoanApplicationToPredictionInput emptyApplication)
          env0 world0 = (inr r, world0)).
Proof.
  unfold convertLoanApplicationToPredictionInput. cbv zeta.
  cbn [creditScore annualIncome employmentLength loanAmount loanPurpose
       homeOwnership verificationStatus debtToIncome].
  repeat match goal with |- _ /\ _ => split end;
    try (intros H; first [now apply or_num_default
                         | now apply or_str_default]).
  - intros [H|H]; rewrite H; [reflexivity|].
    now rewrite andb_false_r.
  - eexists. apply predict_valid. unfold InSchemaDomain. closed_domain.
Qed.

(** A stored application with a zero credit score and no income. *)
Definition sparseApplication : LoanApplication := {|
  credit_score := Some 0; annual_income := None;
  employment_length := Some 4; loan_amount := Some 25000;
  loan_purpose := Some EmptyString; monthly_debt_payment := Some 900;
  has_derogatory := None; delinquencies_last_2years := None;
  inquiries_last_6months := Some 1; home_ownership := None;
  verification_status := Some "verified" |}.

Lemma convert_substitutes_defaults_witness :
  creditScore (convertLoanApplicationToPredictionInput sparseApplication)
  = 650
  /\ annualIncome (convertLoanApplicationToPredictionInput sparseApplication)
     = 50000
  /\ loanPurpose (convertLoanApplicationToPredictionInput sparseApplication)
     = "personal_loan"
  /\ debtToIncome (convertLoanApplicationToPredictionInput sparseApplication)
     = 0.
Proof.
  destruct (convert_substitutes_defaults sparseApplication)
    as (Hc & Hi & _ & _ & Hp & _ & _ & Hd & _).
  split; [|split; [|split]].
  - apply Hc. reflexivity.
  - apply Hi. reflexivity.
  - apply Hp. reflexivity.
  - apply Hd. right. reflexivity.
Defined.

(* ================================================================== *)
(** ** Drift *)

Lemma len_nonneg {A} (xs : list A) : 0 <= len xs.
Proof. unfold len. change 0 with (inject_Z 0). rewrite <- Zle_Qle. lia. Qed.

Lemma len_pos {A} (xs : list A) : xs <> [] -> 0 < len xs.
Proof.
  intros H. unfold len. change 0 with (inject_Z 0). rewrite <- Zlt_Qlt.
  destruct xs; [contradiction | cbn [List.length]; lia].
Qed.

Lemma len_filter_le {A} (f : A -> bool) (xs : list A) :
  len (filter f xs) <= len xs.
Proof.
  unfold len. rewrite <- Zle_Qle.
  pose proof (filter_length_le f xs). lia.
Qed.

(** The share of the entries that pass a test is a fraction. *)
Lemma fraction_bounds {A} (f : A -> bool) (xs : list A) :
  xs <> [] ->
  0 <= len (filter f xs) / len xs /\ len (filter f xs) / len xs <= 1.
Proof.
  intros H. pose proof (len_pos xs H) as Hp.
  pose proof (len_nonneg (filter f xs)) as H0.
  pose proof (len_filter_le f xs) as H1.
  split.
  - apply Qle_shift_div_l; [assumption | qlra].
  - apply Qle_shift_div_r; [assumption | qlra].
Qed.

(** C10: [calculateDrift] returns a report for every list and leaves the
    service untouched; for the empty list the report is all zeros with
    [needsRetraining] false; for a non-empty list the approval rate and
    the three confidence shares lie in [0,1]. *)
Theorem calculateDrift_total_and_bounded
    (l : list PredictionResult) (e : Env) (s : World) :
  calculateDrift [] e s
  = ({| approvalRate := 0; averageScore := 0;
        confidenceDistribution := mkDistribution 0 0 0;
        needsRetraining := false |}, s)
  /\ snd (calculateDrift l e s) = s
  /\ (l <> [] ->
      let d := fst (calculateDrift l e s) in
      (0 <= approvalRate d /\ approvalRate d <= 1)
      /\ (0 <= d_high (confidenceDistribution d)
          /\ d_high (confidenceDistribution d) <= 1)
      /\ (0 <= d_medium (confidenceDistribution d)
          /\ d_medium (confidenceDistribution d) <= 1)
      /\ (0 <= d_low (confidenceDistribution d)
          /\ d_low (confidenceDistribution d) <= 1)).
Proof.
  split; [reflexivity|]. split.
  - destruct l; reflexivity.
  - intros H. destruct l as [|p l]; [contradiction|].
    cbv zeta. unfold calculateDrift, bind, getMetrics, getTime, ret.
    cbn [fst approvalRate confidenceDistribution d_high d_medium d_low].
    repeat split; apply fraction_bounds; assumption.
Qed.

(** Two results that differ in decision and confidence. *)
Definition sampleApproved : PredictionResult := {|
  prediction := approved; probability := 0.5%R; confidence := medium;
  score := 650; reasons := []; featureImportance := initialWeights;
  riskFactors := []; positiveFactors := [] |}.

Definition sampleDenied : PredictionResult := {|
  prediction := denied; probability := 0.5%R; confidence := low;
  score := 300; reasons := []; featureImportance := initialWeights;
  riskFactors := []; positiveFactors := [] |}.

Lemma calculateDrift_total_and_bounded_witness :
  let d := fst (calculateDrift [sampleApproved; sampleDenied] env0 world0) in
  (0 <= approvalRate d /\ approvalRate d <= 1)
  /\ (0 <= d_low (confidenceDistribution d)
      /\ d_low (confidenceDistribution d) <= 1).
Proof.
  destruct (calculateDrift_total_and_bounded
              [sampleApproved; sampleDenied] env0 world0)
    as (_ & _ & H).
  destruct (H ltac:(discriminate)) as (Ha & _ & _ & Hl).
  split; assumption.
Defined.

(* ================================================================== *)
(** * Further properties of the predictor *)

(** ** Every violation is reported *)

Lemma in_zod_min (g : string) (c : Zod.IssueCode) (f : string) (lo x : Q) :
  In (Zod.mkIssue g c) (Zod.min f lo x)
  <-> g = f /\ c = Zod.too_small /\ x < lo.
Proof.
  unfold Zod.min, JS.geb. destruct (Qle_bool lo x) eqn:E.
  - apply Qle_bool_iff in E. split; [intros [] | intros (_ & _ & H); qlra].
  - apply Qle_bool_false in E. cbn. split.
    + intros [H|[]]. injection H as <- <-. auto.
    + intros (-> & -> & _). now left.
Qed.

Lemma in_zod_max (g : string) (c : Zod.IssueCode) (f : string) (hi x : Q) :
  In (Zod.mkIssue g c) (Zod.max f hi x)
  <-> g = f /\ c = Zod.too_big /\ hi < x.
Proof.
  unfold Zod.max, JS.leb. destruct (Qle_bool x hi) eqn:E.
  - apply Qle_bool_iff in E. split; [intros [] | intros (_ & _ & H); qlra].
  - apply Qle_bool_false in E. cbn. split.
    + intros [H|[]]. injection H as <- <-. auto.
    + intros (-> & -> & _). now left.
Qed.

Lemma in_zod_positive (g : string) (c : Zod.IssueCode) (f : string) (x : Q) :
  In (Zod.mkIssue g c) (Zod.positive f x)
  <-> g = f /\ c = Zod.too_small /\ x <= 0.
Proof.
  unfold Zod.positive, JS.gtb. destruct (Qle_bool x 0) eqn:E; cbn.
  - apply Qle_bool_iff in E. split.
    + intros [H|[]]. injection H as <- <-. auto.
    + intros (-> & -> & _). now left.
  - apply Qle_bool_false in E. split; [intros [] | intros (_ & _ & H); qlra].
Qed.

Lemma in_zod_enum (g : string) (c : Zod.IssueCode) (f : string)
    (allowed : list string) (x : string) :
  In (Zod.mkIssue g c) (Zod.enum f allowed x)
  <-> g = f /\ c = Zod.invalid_enum_value /\ ~ In x allowed.
Proof.
  pose proof (zod_enum_nil f allowed x) as Hnil. unfold Zod.enum in *.
  destruct (existsb (String.eqb x) allowed); cbn.
  - split; [intros [] | intros (_ & _ & H)].
    apply H, Hnil. reflexivity.
  - split.
    + intros [H|[]]. injection H as <- <-. repeat split.
      intros Hin. apply Hnil in Hin. discriminate Hin.
    + intros (-> & -> & _). now left.
Qed.

(** Rewrites membership in the issue list into the conditions of the
    individual checks. *)
Ltac issue_membership :=
  unfold LoanPredictionInputSchema;
  repeat rewrite in_app_iff;
  repeat rewrite in_zod_min; repeat rewrite in_zod_max;
  repeat rewrite in_zod_positive; repeat rewrite in_zod_enum;
  split;
  [ intros H; decompose [or and] H; clear H; try discriminate; try assumption
  | intros H; tauto ].

(** X1: Validation does not stop at the first failure: each failed check of
    the schema has its own issue in the thrown error, and an issue is
    present only when its check fails. *)
Theorem schema_reports_every_violation (i : LoanPredictionInput) :
  let issues := LoanPredictionInputSchema i in
  (In (Zod.mkIssue "creditScore" Zod.too_small) issues
   <-> creditScore i < 300)
  /\ (In (Zod.mkIssue "creditScore" Zod.too_big) issues
      <-> 850 < creditScore i)
  /\ (In (Zod.mkIssue "annualIncome" Zod.too_small) issues
      <-> annualIncome i <= 0)
  /\ (In (Zod.mkIssue "employmentLength" Zod.too_small) issues
      <-> employmentLength i < 0)
  /\ (In (Zod.mkIssue "loanAmount" Zod.too_small) issues
      <-> loanAmount i <= 0)
  /\ (In (Zod.mkIssue "loanPurpose" Zod.invalid_enum_value) issues
      <-> ~ In (loanPurpose i) loanPurposes)
  /\ (In (Zod.mkIssue "debtToIncome" Zod.too_small) issues
      <-> debtToIncome i < 0)
  /\ (In (Zod.mkIssue "debtToIncome" Zod.too_big) issues
      <-> 1 < debtToIncome i)
  /\ (In (Zod.mkIssue "delinquenciesLast2Years" Zod.too_small) issues
      <-> delinquenciesLast2Years i < 0)
  /\ (In (Zod.mkIssue "inquiriesLast6Months" Zod.too_small) issues
      <-> inquiriesLast6Months i < 0)
  /\ (In (Zod.mkIssue "homeOwnership" Zod.invalid_enum_value) issues
      <-> ~ In (homeOwnership i) homeOwnerships)
  /\ (In (Zod.mkIssue "verificationStatus" Zod.invalid_enum_value) issues
      <-> ~ In (verificationStatus i) verificationStatuses).
Proof.
  cbv zeta. repeat match goal with |- _ /\ _ => split end;
    issue_membership.
Qed.

(** ** What the constructor's weights imply *)

Lemma calculateCreditScoreComponent_le_1 (x : Q) :
  calculateCreditScoreComponent x <= 1.
Proof. unfold calculateCreditScoreComponent, JS.geb. split_band; qlra. Qed.

Lemma calculateDebtToIncomeComponent_le_1 (x : Q) :
  calculateDebtToIncomeComponent x <= 1.
Proof. unfold calculateDebtToIncomeComponent, JS.leb. split_band; qlra. Qed.

Lemma calculateIncomeComponent_le_1 (x : Q) :
  calculateIncomeComponent x <= 1.
Proof. unfold calculateIncomeComponent, JS.geb. split_band; qlra. Qed.

Lemma calculateEmploymentComponent_le_1 (x : Q) :
  calculateEmploymentComponent x <= 1.
Proof. unfold calculateEmploymentComponent, JS.geb. split_band; qlra. Qed.

Lemma calculateLoanAmountComponent_le_1 (l x : Q) :
  calculateLoanAmountComponent l x <= 1.
Proof.
  unfold calculateLoanAmountComponent, JS.leb. cbv zeta.
  split_band; qlra.
Qed.

Lemma calculateHomeOwnershipBonus_le_20 (h : string) :
  calculateHomeOwnershipBonus h <= 20.
Proof.
  unfold calculateHomeOwnershipBonus.
  repeat match goal with |- context [String.eqb ?a ?b] =>
    destruct (String.eqb a b) end; qlra.
Qed.

Lemma calculateVerificationBonus_le_15 (v : string) :
  calculateVerificationBonus v <= 15.
Proof.
  unfold calculateVerificationBonus.
  repeat match goal with |- context [String.eqb ?a ?b] =>
    destruct (String.eqb a b) end; qlra.
Qed.

(** With the constructor's weights the favourable terms add up to at most
    1025 points; a derogatory mark costs 3500 points, each delinquency
    500 and each inquiry 150. *)
Lemma rawScore_initial_bound (i : LoanPredictionInput) :
  rawScore initialWeights i
  <= 1025 + (if hasDerogatory i then -3500 else 0)
     - 500 * delinquenciesLast2Years i - 150 * inquiriesLast6Months i.
Proof.
  unfold rawScore, initialWeights. cbv zeta.
  cbn [w_creditScore w_debtToIncome w_annualIncome w_employmentLength
       w_hasDerogatory w_delinquenciesLast2Years w_inquiriesLast6Months
       w_loanAmount w_homeOwnership w_verificationStatus].
  pose proof (calculateCreditScoreComponent_le_1 (creditScore i)).
  pose proof (calculateDebtToIncomeComponent_le_1 (debtToIncome i)).
  pose proof (calculateIncomeComponent_le_1 (annualIncome i)).
  pose proof (calculateEmploymentComponent_le_1 (employmentLength i)).
  pose proof (calculateLoanAmountComponent_le_1 (loanAmount i)
                (annualIncome i)).
  pose proof (calculateHomeOwnershipBonus_le_20 (homeOwnership i)).
  pose proof (calculateVerificationBonus_le_15 (verificationStatus i)).
  destruct (hasDerogatory i); qlra.
Qed.

Lemma clampedScore_lt_650 (w : FeatureImportance) (i : LoanPredictionInput) :
  rawScore w i < 650 -> clampedScore w i < 650.
Proof.
  intros H. unfold clampedScore. apply Q.max_lub_lt; [reflexivity|].
  eapply Qle_lt_trans; [apply Q.le_min_r | exact H].
Qed.

Lemma clampedScore_zero (w : FeatureImportance) (i : LoanPredictionInput) :
  rawScore w i <= 0 -> clampedScore w i == 0.
Proof.
  intros H. unfold clampedScore. apply Q.max_l.
  eapply Qle_trans; [apply Q.le_min_r | exact H].
Qed.

Lemma decide_denied (score : Q) :
  score < 650 -> decide (scoreToTprobability score) = denied.
Proof.
  intros H. rewrite decide_score. unfold JS.geb.
  destruct (Qle_bool 650 score) eqn:E; [|reflexivity].
  apply Qle_bool_iff in E. qlra.
Qed.

(** A profile with a derogatory mark counts at least two confidence
    signals once its score is at most 400. *)
Lemma confidence_with_derogatory (score : Q) (i : LoanPredictionInput) :
  hasDerogatory i = true -> score <= 400 ->
  calculateConfidence score i <> low.
Proof.
  intros Hd Hs. unfold calculateConfidence. cbv zeta. rewrite Hd.
  assert ((score <=? 400) = true) as -> by now apply leb_true.
  rewrite orb_true_r. cbn [b2n].
  match goal with |- context [Nat.leb 4 ?n] =>
    destruct (Nat.leb 4 n); [discriminate|];
    destruct (Nat.leb 2 n) eqn:E; [discriminate|];
    apply Nat.leb_gt in E; lia
  end.
Qed.

(** X2: On a freshly constructed service a derogatory mark is a veto (score
    0, denied, confidence never low), and so are one delinquency or three
    inquiries: no valid profile with any of them is approved. *)
Theorem constructed_service_vetoes
    (i : LoanPredictionInput) (e : Env) (n : nat) :
  InSchemaDomain i ->
  exists r,
    predict i e (mkWorld newService n) = (inr r, mkWorld newService n)
    /\ (hasDerogatory i = true ->
        score r = 0%Z /\ prediction r = denied /\ confidence r <> low)
    /\ (1 <= delinquenciesLast2Years i -> prediction r = denied)
    /\ (3 <= inquiriesLast6Months i -> prediction r = denied).
Proof.
  intros Hi. eexists. split; [now apply predict_valid|].
  cbn [prediction score confidence predictValidated service modelWeights
       newService].
  pose proof (rawScore_initial_bound i) as Hb.
  destruct Hi as (_ & _ & _ & _ & _ & _ & _ & _ & Hdel & Hinq & _).
  split; [|split].
  - intros Hd. rewrite Hd in Hb.
    assert (rawScore initialWeights i <= 0) as H0 by qlra.
    pose proof (clampedScore_zero _ _ H0) as Hz.
    split; [|split].
    + unfold JS.round. rewrite Hz. reflexivity.
    + apply decide_denied. qlra.
    + apply confidence_with_derogatory; [assumption | qlra].
  - intros H1. apply decide_denied, clampedScore_lt_650.
    destruct (hasDerogatory i); qlra.
  - intros H3. apply decide_denied, clampedScore_lt_650.
    destruct (hasDerogatory i); qlra.
Qed.

(** A valid profile with a derogatory mark and otherwise the best
    values. *)
Definition derogatoryProfile : LoanPredictionInput := {|
  creditScore := 850; annualIncome := 200000; employmentLength := 20;
  loanAmount := 1000; loanPurpose := "home_loan";
  debtToIncome := 0; hasDerogatory := true;
  delinquenciesLast2Years := 0; inquiriesLast6Months := 0;
  homeOwnership := "own"; verificationStatus := "verified" |}.

Lemma constructed_service_vetoes_witness :
  exists r,
    predict derogatoryProfile env0 world0 = (inr r, world0)
    /\ score r = 0%Z /\ prediction r = denied /\ confidence r <> low.
Proof.
  destruct (constructed_service_vetoes derogatoryProfile env0 0%nat)
    as (r & Hp & Hd & _).
  - unfold InSchemaDomain. closed_domain.
  - exists r. split; [exact Hp|]. apply Hd. reflexivity.
Defined.

(** ** The returned score against the decision *)

Lemma round_le_650 (x : Q) : x < 650 -> (JS.round x <= 650)%Z.
Proof.
  intros H. unfold JS.round.
  pose proof (Qfloor_le (x + 0.5)) as Hf.
  assert (inject_Z (Qfloor (x + 0.5)) < inject_Z 651) as Hlt.
  { eapply Qle_lt_trans; [exact Hf|]. change (inject_Z 651) with 651. qlra. }
  rewrite <- Zlt_Qlt in Hlt. lia.
Qed.

(** X3: The rounded score that is returned brackets the decision: an approved
    result shows a score of at least 650, and a shown score of 651 or more
    means approved (a shown score of exactly 650 can go either way, since
    the decision is taken before rounding). *)
Theorem returned_score_brackets_decision
    (i : LoanPredictionInput) (e : Env) (s : World) :
  InSchemaDomain i ->
  exists r,
    predict i e s = (inr r, s)
    /\ (prediction r = approved -> (650 <= score r)%Z)
    /\ ((651 <= score r)%Z -> prediction r = approved).
Proof.
  intros Hi. eexists. split; [now apply predict_valid|].
  cbn [prediction score predictValidated].
  set (c := clampedScore (modelWeights (service s)) i).
  split.
  - intros Ha. apply decide_approved, probability_ge_half in Ha.
    change 650%Z with (JS.round 650). now apply round_mono.
  - intros H651. apply decide_approved, probability_ge_half.
    destruct (Qlt_le_dec c 650) as [Hlt|Hle]; [|exact Hle].
    pose proof (round_le_650 c Hlt). lia.
Qed.

Lemma returned_score_brackets_decision_witness :
  exists r,
    predict (scenarioA "home_loan") env0 world0 = (inr r, world0)
    /\ prediction r = approved.
Proof.
  destruct (returned_score_brackets_decision (scenarioA "home_loan")
              env0 world0) as (r & Hp & _ & H651).
  - unfold InSchemaDomain. closed_domain.
  - exists r. split; [exact Hp|]. apply H651.
    rewrite (predict_valid _ env0 world0) in Hp
      by (unfold InSchemaDomain; closed_domain).
    injection Hp as <-. cbn [score predictValidated]. vm_compute.
    discriminate.
Defined.

(** ** Monotonicity in the remaining fields *)

Definition with_annualIncome (x : Q) (i : LoanPredictionInput)
  : LoanPredictionInput :=
  mkInput (creditScore i) x (employmentLength i) (loanAmount i)
    (loanPurpose i) (debtToIncome i) (hasDerogatory i)
    (delinquenciesLast2Years i) (inquiriesLast6Months i) (homeOwnership i)
    (verificationStatus i).

Definition with_employmentLength (x : Q) (i : LoanPredictionInput)
  : LoanPredictionInput :=
  mkInput (creditScore i) (annualIncome i) x (loanAmount i)
    (loanPurpose i) (debtToIncome i) (hasDerogatory i)
    (delinquenciesLast2Years i) (inquiriesLast6Months i) (homeOwnership i)
    (verificationStatus i).

Definition with_loanAmount (x : Q) (i : LoanPredictionInput)
  : LoanPredictionInput :=
  mkInput (creditScore i) (annualIncome i) (employmentLength i) x
    (loanPurpose i) (debtToIncome i) (hasDerogatory i)
    (delinquenciesLast2Years i) (inquiriesLast6Months i) (homeOwnership i)
    (verificationStatus i).

Definition with_inquiries (x : Q) (i : LoanPredictionInput)
  : LoanPredictionInput :=
  mkInput (creditScore i) (annualIncome i) (employmentLength i)
    (loanAmount i) (loanPurpose i) (debtToIncome i) (hasDerogatory i)
    (delinquenciesLast2Years i) x (homeOwnership i) (verificationStatus i).

Definition with_hasDerogatory (b : bool) (i : LoanPredictionInput)
  : LoanPredictionInput :=
  mkInput (creditScore i) (annualIncome i) (employmentLength i)
    (loanAmount i) (loanPurpose i) (debtToIncome i) b
    (delinquenciesLast2Years i) (inquiriesLast6Months i) (homeOwnership i)
    (verificationStatus i).

Ltac input_fields :=
  cbn [with_annualIncome with_employmentLength with_loanAmount
       with_inquiries with_hasDerogatory creditScore annualIncome
       employmentLength loanAmount loanPurpose debtToIncome hasDerogatory
       delinquenciesLast2Years inquiriesLast6Months homeOwnership
       verificationStatus].

Lemma calculateIncomeComponent_mono (a b : Q) :
  a <= b -> calculateIncomeComponent a <= calculateIncomeComponent b.
Proof.
  intros H. unfold calculateIncomeComponent, JS.geb. split_band; qlra.
Qed.

Lemma calculateEmploymentComponent_mono (a b : Q) :
  a <= b -> calculateEmploymentComponent a <= calculateEmploymentComponent b.
Proof.
  intros H. unfold calculateEmploymentComponent, JS.geb. split_band; qlra.
Qed.

(** The loan-amount component only looks at the ratio, and falls as the
    ratio grows. *)
Lemma loanAmountComponent_ratio (l x l' x' : Q) :
  l' / x' <= l / x ->
  calculateLoanAmountComponent l x <= calculateLoanAmountComponent l' x'.
Proof.
  intros H. unfold calculateLoanAmountComponent, JS.leb. cbv zeta.
  set (q := l / x) in *. set (q' := l' / x') in *.
  split_band; qlra.
Qed.

Lemma ratio_falls_with_income (l x x' : Q) :
  0 <= l -> 0 < x -> x <= x' -> l / x' <= l / x.
Proof.
  intros Hl Hx Hxx'.
  assert (0 < x') as Hx' by qlra.
  apply Qle_shift_div_l; [assumption|].
  assert (0 <= l / x') as Hq by (apply Qle_shift_div_l; [assumption | qlra]).
  assert (x' * (l / x') == l) as Hm by (apply Qmult_div_r; intros Hz; qlra).
  pose proof (Qmult_le_compat_r x x' (l / x') Hxx' Hq) as Hc.
  rewrite Hm in Hc. rewrite (Qmult_comm (l / x') x). exact Hc.
Qed.

Lemma ratio_grows_with_loan (l l' x : Q) :
  0 < x -> l <= l' -> l / x <= l' / x.
Proof.
  intros Hx Hl. unfold Qdiv. apply Qmult_le_compat_r; [assumption|].
  apply Qlt_le_weak, Qinv_lt_0_compat, Hx.
Qed.

Lemma rawScore_annualIncome_mono
    (w : FeatureImportance) (i : LoanPredictionInput) (x : Q) :
  0 <= w_annualIncome w -> 0 <= w_loanAmount w ->
  0 <= loanAmount i -> 0 < annualIncome i -> annualIncome i <= x ->
  rawScore w i <= rawScore w (with_annualIncome x i).
Proof.
  intros Hw Hw' Hl Hi Hx. unfold rawScore. cbv zeta. input_fields.
  pose proof (Qmult_le_compat_r _ _ (w_annualIncome w)
                (calculateIncomeComponent_mono _ _ Hx) Hw).
  pose proof (Qmult_le_compat_r _ _ (w_loanAmount w)
                (loanAmountComponent_ratio _ _ _ _
                   (ratio_falls_with_income _ _ _ Hl Hi Hx)) Hw').
  qlra.
Qed.

Lemma rawScore_employmentLength_mono
    (w : FeatureImportance) (i : LoanPredictionInput) (x : Q) :
  0 <= w_employmentLength w -> employmentLength i <= x ->
  rawScore w i <= rawScore w (with_employmentLength x i).
Proof.
  intros Hw Hx. unfold rawScore. cbv zeta. input_fields.
  pose proof (Qmult_le_compat_r _ _ (w_employmentLength w)
                (calculateEmploymentComponent_mono _ _ Hx) Hw).
  qlra.
Qed.

Lemma rawScore_loanAmount_antimono
    (w : FeatureImportance) (i : LoanPredictionInput) (x : Q) :
  0 <= w_loanAmount w -> 0 < annualIncome i -> loanAmount i <= x ->
  rawScore w (with_loanAmount x i) <= rawScore w i.
Proof.
  intros Hw Hi Hx. unfold rawScore. cbv zeta. input_fields.
  pose proof (Qmult_le_compat_r _ _ (w_loanAmount w)
                (loanAmountComponent_ratio _ _ _ _
                   (ratio_grows_with_loan _ _ _ Hi Hx)) Hw).
  qlra.
Qed.

Lemma rawScore_inquiries_antimono
    (w : FeatureImportance) (i : LoanPredictionInput) (x : Q) :
  0 <= w_inquiriesLast6Months w -> inquiriesLast6Months i <= x ->
  rawScore w (with_inquiries x i) <= rawScore w i.
Proof.
  intros Hw Hx. unfold rawScore. cbv zeta. input_fields.
  assert (x * -5 <= inquiriesLast6Months i * -5) as Hp by qlra.
  pose proof (Qmult_le_compat_r _ _ (w_inquiriesLast6Months w) Hp Hw).
  qlra.
Qed.

Lemma rawScore_hasDerogatory_antimono
    (w : FeatureImportance) (i : LoanPredictionInput) :
  0 <= w_hasDerogatory w ->
  rawScore w (with_hasDerogatory true i) <= rawScore w i.
Proof.
  intros Hw. unfold rawScore. cbv zeta. input_fields.
  destruct (hasDerogatory i); qlra.
Qed.

Lemma with_hasDerogatory_domain (b : bool) (i : LoanPredictionInput) :
  InSchemaDomain i -> InSchemaDomain (with_hasDerogatory b i).
Proof. intros H. exact H. Qed.

(** X4: On every run-time service and for valid profiles that differ in one
    field only: more income or a longer employment never lowers the
    returned score; a larger loan, more inquiries or an added derogatory
    mark never raises it. *)
Theorem score_monotone_remaining_fields
    (e : Env) (s : World) (i : LoanPredictionInput) (x : Q) :
  Reachable (service s) ->
  InSchemaDomain i ->
  (annualIncome i <= x -> InSchemaDomain (with_annualIncome x i) ->
   exists r r',
     predict i e s = (inr r, s)
     /\ predict (with_annualIncome x i) e s = (inr r', s)
     /\ (score r <= score r')%Z)
  /\ (employmentLength i <= x ->
      InSchemaDomain (with_employmentLength x i) ->
      exists r r',
        predict i e s = (inr r, s)
        /\ predict (with_employmentLength x i) e s = (inr r', s)
        /\ (score r <= score r')%Z)
  /\ (loanAmount i <= x -> InSchemaDomain (with_loanAmount x i) ->
      exists r' r,
        predict (with_loanAmount x i) e s = (inr r', s)
        /\ predict i e s = (inr r, s)
        /\ (score r' <= score r)%Z)
  /\ (inquiriesLast6Months i <= x -> InSchemaDomain (with_inquiries x i) ->
      exists r' r,
        predict (with_inquiries x i) e s = (inr r', s)
        /\ predict i e s = (inr r, s)
        /\ (score r' <= score r)%Z)
  /\ (exists r' r,
        predict (with_hasDerogatory true i) e s = (inr r', s)
        /\ predict i e s = (inr r, s)
        /\ (score r' <= score r)%Z).
Proof.
  intros Hreach Hi.
  destruct (reachable_inv _ Hreach) as [Hn _].
  destruct Hn as (_ & _ & Hinc & Hemp & Hder & _ & Hinq & Hloan & _).
  pose proof Hi as (_ & _ & Hpos & _ & Hlpos & _).
  assert (forall i1 i2,
            InSchemaDomain i1 -> InSchemaDomain i2 ->
            rawScore (modelWeights (service s)) i1
            <= rawScore (modelWeights (service s)) i2 ->
            exists r1 r2,
              predict i1 e s = (inr r1, s) /\ predict i2 e s = (inr r2, s)
              /\ (score r1 <= score r2)%Z) as Hle.
  { intros i1 i2 H1 H2 Hraw.
    destruct (predict_score_le e s i1 i2 H1 H2 Hraw)
      as (r1 & r2 & Ha & Hb & _ & Hc).
    exists r1, r2. auto. }
  repeat match goal with |- _ /\ _ => split end.
  - intros Hx Hi'. apply Hle; try assumption.
    apply rawScore_annualIncome_mono; try assumption. qlra.
  - intros Hx Hi'. apply Hle; try assumption.
    now apply rawScore_employmentLength_mono.
  - intros Hx Hi'. apply Hle; try assumption.
    now apply rawScore_loanAmount_antimono.
  - intros Hx Hi'. apply Hle; try assumption.
    now apply rawScore_inquiries_antimono.
  - apply Hle; [now apply with_hasDerogatory_domain | assumption |].
    now apply rawScore_hasDerogatory_antimono.
Qed.

Lemma score_monotone_remaining_fields_witness :
  exists r r',
    predict scenarioD749 env0 world0 = (inr r, world0)
    /\ predict (with_annualIncome 100000 scenarioD749) env0 world0
       = (inr r', world0)
    /\ (score r <= score r')%Z.
Proof.
  apply (proj1 (score_monotone_remaining_fields env0 world0 scenarioD749
                  100000 reach_new
                  ltac:(unfold InSchemaDomain; closed_domain))).
  - closed_fact.
  - unfold InSchemaDomain. closed_domain.
Defined.

(** ** The explanatory lists *)

Lemma in_push_if (s : string) (c : bool) (t : string) :
  In s (push_if c t) <-> c = true /\ t = s.
Proof.
  unfold push_if. destruct c; cbn.
  - split; [intros [H|[]]; auto | intros [_ H]; now left].
  - split; [intros [] | intros [H _]; discriminate H].
Qed.

(** Turns membership in one of the generated lists into the tests that
    push the entries. *)
Ltac list_membership :=
  repeat rewrite in_app_iff; repeat rewrite in_push_if.

Ltac pick_entry :=
  list_membership;
  repeat match goal with
  | |- (_ = true /\ ?s = ?s) \/ _ => left; split; [|reflexivity]
  | |- _ = true /\ ?s = ?s => split; [|reflexivity]
  | |- _ \/ _ => right
  end.

Ltac entry_test H :=
  repeat rewrite in_app_iff in H; repeat rewrite in_push_if in H;
  decompose [or and] H; clear H; try discriminate.

(** X5: Each reason given for a denial, except the one about the loan-to-income
    ratio, is backed by an entry of the risk-factor list: the reasons use
    stricter thresholds than the risk factors. *)
Theorem denial_reasons_backed_by_risk_factors
    (i : LoanPredictionInput) (score : Q) :
  let reasons := generateReasons i score denied in
  let risks := identifyRiskFactors i in
  (In "Credit score below acceptable threshold indicates high risk" reasons
   -> In "Below-average credit score" risks)
  /\ (In "High debt-to-income ratio exceeds lending guidelines" reasons
      -> In "High debt-to-income ratio" risks)
  /\ (In "Low income may not support loan repayment" reasons
      -> In "Lower income level" risks)
  /\ (In "Derogatory marks on credit report raise concerns" reasons
      -> In "Derogatory credit marks" risks)
  /\ (In "Recent payment delinquencies indicate repayment risk" reasons
      -> In "Recent payment delinquencies" risks)
  /\ (In "Multiple recent credit inquiries suggest financial stress" reasons
      -> In "Multiple recent credit inquiries" risks)
  /\ (In "Short employment history increases income stability risk" reasons
      -> In "Short employment history" risks).
Proof.
  cbv zeta. unfold generateReasons, identifyRiskFactors. cbv zeta.
  repeat match goal with |- _ /\ _ => split end; intros H; entry_test H.
  - pick_entry. match goal with H : _ = true |- _ => apply ltb_true in H end.
    apply ltb_true. qlra.
  - pick_entry. match goal with H : _ = true |- _ => apply gtb_true in H end.
    apply gtb_true. qlra.
  - pick_entry. match goal with H : _ = true |- _ => apply ltb_true in H end.
    apply ltb_true. qlra.
  - pick_entry. assumption.
  - pick_entry. match goal with H : _ = true |- _ => apply geb_true in H end.
    apply gtb_true. qlra.
  - pick_entry. match goal with H : _ = true |- _ => apply geb_true in H end.
    apply gtb_true. qlra.
  - pick_entry. match goal with H : _ = true |- _ => apply ltb_true in H end.
    apply ltb_true. qlra.
Qed.

Lemma denial_reasons_backed_by_risk_factors_witness :
  In "Below-average credit score"
    (identifyRiskFactors (scenarioB "personal_loan")).
Proof.
  apply (proj1 (denial_reasons_backed_by_risk_factors
                  (scenarioB "personal_loan") 0)).
  vm_compute. tauto.
Defined.

(** X6: The positive and risk labels follow the bands of the score
    components, with one exception: "Lower income level" is tested at
    40000, inside the income band that starts at 35000. *)
Theorem labels_follow_component_bands (i : LoanPredictionInput) :
  (In "Excellent credit score" (identifyPositiveFactors i)
   <-> calculateCreditScoreComponent (creditScore i) == 1.0)
  /\ (In "Good credit score" (identifyPositiveFactors i)
      <-> calculateCreditScoreComponent (creditScore i) == 0.8)
  /\ (In "Low debt-to-income ratio" (identifyPositiveFactors i)
      <-> 0.8 <= calculateDebtToIncomeComponent (debtToIncome i))
  /\ (In "High annual income" (identifyPositiveFactors i)
      <-> 0.8 <= calculateIncomeComponent (annualIncome i))
  /\ (In "Long employment history" (identifyPositiveFactors i)
      <-> calculateEmploymentComponent (employmentLength i) == 1.0)
  /\ (In "Below-average credit score" (identifyRiskFactors i)
      <-> calculateCreditScoreComponent (creditScore i) <= 0.4)
  /\ (In "High debt-to-income ratio" (identifyRiskFactors i)
      <-> calculateDebtToIncomeComponent (debtToIncome i) <= 0.4)
  /\ (In "Short employment history" (identifyRiskFactors i)
      <-> calculateEmploymentComponent (employmentLength i) <= 0.4)
  /\ (In "Lower income level" (identifyRiskFactors i)
      -> calculateIncomeComponent (annualIncome i) <= 0.4)
  /\ (calculateIncomeComponent (annualIncome i) <= 0.2
      -> In "Lower income level" (identifyRiskFactors i)).
Proof.
  unfold identifyPositiveFactors, identifyRiskFactors.
  repeat match goal with |- _ /\ _ => split end;
    try split; intros H;
    try (entry_test H;
         repeat match goal with
         | H : andb _ _ = true |- _ => apply andb_prop in H; destruct H
         | H : JS.geb _ _ = true |- _ => apply geb_true in H
         | H : JS.leb _ _ = true |- _ => apply leb_true in H
         | H : JS.gtb _ _ = true |- _ => apply gtb_true in H
         | H : JS.ltb _ _ = true |- _ => apply ltb_true in H
         end;
         unfold calculateCreditScoreComponent, calculateIncomeComponent,
           calculateDebtToIncomeComponent, calculateEmploymentComponent,
           JS.geb, JS.leb;
         split_band; qlra);
    pick_entry;
    try (apply andb_true_intro; split);
    first [apply geb_true | apply leb_true | apply gtb_true | apply ltb_true];
    revert H;
    unfold calculateCreditScoreComponent, calculateIncomeComponent,
      calculateDebtToIncomeComponent, calculateEmploymentComponent,
      JS.geb, JS.leb;
    split_band; intros H; qlra.
Qed.

Lemma labels_follow_component_bands_witness :
  In "Lower income level" (identifyRiskFactors (scenarioB "auto_loan")).
Proof.
  apply (proj2 (proj2 (proj2 (proj2 (proj2 (proj2 (proj2 (proj2 (proj2
           (labels_follow_component_bands (scenarioB "auto_loan"))))))))))).
  apply Qle_bool_iff. reflexivity.
Defined.

(** X7: On a freshly constructed service an approval implies a clean record,
    and the lists say so: the reasons contain the clean-history sentence,
    the positive factors contain "Clean credit history", and the risk
    factors contain neither the derogatory nor the inquiries label. *)
Theorem approval_lists_on_constructed_service
    (i : LoanPredictionInput) (e : Env) (n : nat) :
  InSchemaDomain i ->
  exists r,
    predict i e (mkWorld newService n) = (inr r, mkWorld newService n)
    /\ (prediction r = approved ->
        In "Clean credit history with no major derogatory marks" (reasons r)
        /\ In "Clean credit history" (positiveFactors r)
        /\ ~ In "Derogatory credit marks" (riskFactors r)
        /\ ~ In "Multiple recent credit inquiries" (riskFactors r)).
Proof.
  intros Hi. eexists. split; [now apply predict_valid|].
  cbn [prediction reasons positiveFactors riskFactors predictValidated
       service modelWeights newService].
  intros Ha. rewrite Ha.
  pose proof (rawScore_initial_bound i) as Hb.
  destruct Hi as (_ & _ & _ & _ & _ & _ & _ & _ & Hdel & Hinq & _).
  assert (hasDerogatory i = false) as Hd.
  { destruct (hasDerogatory i) eqn:E; [|reflexivity].
    rewrite decide_denied in Ha; [discriminate Ha|].
    apply clampedScore_lt_650. qlra. }
  assert (inquiriesLast6Months i < 3) as Hq.
  { apply Qnot_le_lt. intros H3.
    rewrite decide_denied in Ha; [discriminate Ha|].
    apply clampedScore_lt_650. rewrite Hd in Hb. qlra. }
  unfold generateReasons, identifyPositiveFactors, identifyRiskFactors.
  rewrite Hd. repeat split.
  - rewrite in_app_iff. right. pick_entry. reflexivity.
  - pick_entry. reflexivity.
  - intros H. entry_test H.
  - intros H. entry_test H.
    match goal with H : _ = true |- _ => apply gtb_true in H end. qlra.
Qed.

Lemma approval_lists_on_constructed_service_witness :
  exists r,
    predict (scenarioA "home_loan") env0 world0 = (inr r, world0)
    /\ In "Clean credit history" (positiveFactors r).
Proof.
  destruct (approval_lists_on_constructed_service (scenarioA "home_loan")
              env0 0%nat) as (r & Hp & H).
  - unfold InSchemaDomain. closed_domain.
  - exists r. split; [exact Hp|]. apply H.
    rewrite (predict_valid _ env0 world0) in Hp
      by (unfold InSchemaDomain; closed_domain).
    injection Hp as <-. cbn [prediction predictValidated].
    rewrite decide_score. reflexivity.
Defined.

(** ** Recommendations *)




Lemma gtb_false (a b : Q) : (a >? b) = false <-> a <= b.
Proof.
  rewrite <- not_true_iff_false, gtb_true. split.
  - apply Qnot_lt_le.
  - intros H H'. qlra.
Qed.




(** ** Batch prediction *)

(** X9: A batch of valid profiles is scored element by element, in order,
    without touching the service; a batch with an invalid profile throws
    the error of its first invalid profile and returns no result at
    all. *)
Theorem batchPredict_all_or_nothing
    (e : Env) (s : World) (valid : list LoanPredictionInput)
    (bad : LoanPredictionInput) (rest : list LoanPredictionInput) :
  Forall InSchemaDomain valid ->
  batchPredict valid e s
  = (inr (map (predictValidated (modelWeights (service s))) valid), s)
  /\ (~ InSchemaDomain bad ->
      batchPredict (valid ++ bad :: rest) e s
      = (inl (LoanPredictionInputSchema bad), s)).
Proof.
  intros Hv. split.
  - induction Hv as [|i l Hi Hl IH]; [reflexivity|].
    cbn [batchPredict map]. unfold bind.
    rewrite (predict_valid i e s Hi), IH. reflexivity.
  - intros Hbad. induction Hv as [|i l Hi Hl IH].
    + cbn [batchPredict app]. unfold bind.
      rewrite (predict_invalid bad e s Hbad). reflexivity.
    + cbn [batchPredict app]. unfold bind.
      rewrite (predict_valid i e s Hi), IH. reflexivity.
Qed.

Lemma batchPredict_all_or_nothing_witness :
  batchPredict ([scenarioD749] ++ scenarioC :: [score650Profile]) env0 world0
  = (inl (LoanPredictionInputSchema scenarioC), world0).
Proof.
  apply (batchPredict_all_or_nothing env0 world0 [scenarioD749] scenarioC
           [score650Profile]).
  - constructor; [|constructor]. unfold InSchemaDomain. closed_domain.
  - intros (_ & H & _). apply Qle_bool_iff in H. discriminate H.
Defined.

(** ** Drift reports *)

Lemma confidence_partition (l : list PredictionResult) :
  (List.length (filter (fun p => Confidence_eqb (confidence p) high) l)
   + List.length (filter (fun p => Confidence_eqb (confidence p) medium) l)
   + List.length (filter (fun p => Confidence_eqb (confidence p) low) l)
   = List.length l)%nat.
Proof.
  induction l as [|p l IH]; [reflexivity|].
  cbn [filter]. destruct (confidence p); cbn [Confidence_eqb List.length];
    lia.
Qed.

Lemma len_cons {A} (a : A) (l : list A) : len (a :: l) == len l + 1.
Proof.
  unfold len. cbn [List.length]. rewrite Nat2Z.inj_succ, <- Z.add_1_r.
  rewrite inject_Z_plus. reflexivity.
Qed.

Lemma fold_scores_bounds (l : list PredictionResult) (acc : Q) :
  Forall (fun p => (0 <= score p <= 1000)%Z) l ->
  acc <= fold_left (fun sum p => sum + inject_Z (score p)) l acc
  /\ fold_left (fun sum p => sum + inject_Z (score p)) l acc
     <= acc + 1000 * len l.
Proof.
  intros H. revert acc. induction H as [|p l [Hlo Hhi] Hl IH]; intros acc.
  - cbn [fold_left]. change (len (@nil PredictionResult)) with 0.
    split; qlra.
  - cbn [fold_left]. destruct (IH (acc + inject_Z (score p))) as [H1 H2].
    rewrite Zle_Qle in Hlo, Hhi. rewrite len_cons.
    change (inject_Z 0) with 0 in Hlo. change (inject_Z 1000) with 1000 in Hhi.
    split; qlra.
Qed.

(** X10: For a non-empty list the three confidence shares of the report add up
    to one, and the average score stays between 0 and 1000 whenever every
    listed score does. *)
Theorem drift_shares_sum_to_one
    (l : list PredictionResult) (e : Env) (s : World) :
  l <> [] ->
  let d := fst (calculateDrift l e s) in
  d_high (confidenceDistribution d) + d_medium (confidenceDistribution d)
  + d_low (confidenceDistribution d) == 1
  /\ (Forall (fun p => (0 <= score p <= 1000)%Z) l ->
      0 <= averageScore d /\ averageScore d <= 1000).
Proof.
  intros Hne. pose proof (len_pos l Hne) as Hpos.
  destruct l as [|p0 l0]; [contradiction|].
  cbv zeta. unfold calculateDrift, bind, getMetrics, getTime, ret.
  cbn [fst averageScore confidenceDistribution d_high d_medium d_low].
  set (l := p0 :: l0) in *. split.
  - pose proof (confidence_partition l) as Hp.
    assert (len (filter (fun p => Confidence_eqb (confidence p) high) l)
            + len (filter (fun p => Confidence_eqb (confidence p) medium) l)
            + len (filter (fun p => Confidence_eqb (confidence p) low) l)
            == len l) as Hsum.
    { unfold len. rewrite <- !inject_Z_plus, <- !Nat2Z.inj_add, Hp.
      reflexivity. }
    set (a := len (filter _ l)) in *.
    set (b := len (filter (fun p => Confidence_eqb (confidence p) medium) l))
      in *.
    set (c := len (filter (fun p => Confidence_eqb (confidence p) low) l))
      in *.
    assert (~ len l == 0) as Hnz by (intros Hz; qlra).
    transitivity ((a + b + c) / len l); [field; exact Hnz|].
    rewrite Hsum. field. exact Hnz.
  - intros Hall. destruct (fold_scores_bounds l 0 Hall) as [H1 H2]. split.
    + apply Qle_shift_div_l; [assumption | qlra].
    + apply Qle_shift_div_r; [assumption | qlra].
Qed.

Lemma drift_shares_sum_to_one_witness :
  let d := fst (calculateDrift [sampleApproved; sampleDenied] env0 world0) in
  d_high (confidenceDistribution d) + d_medium (confidenceDistribution d)
  + d_low (confidenceDistribution d) == 1.
Proof.
  apply (drift_shares_sum_to_one [sampleApproved; sampleDenied] env0 world0).
  discriminate.
Defined.

Lemma filter_all {A} (f : A -> bool) (l : list A) :
  Forall (fun x => f x = true) l -> filter f l = l.
Proof.
  intros H. apply forallb_filter_id, forallb_forall.
  now apply Forall_forall.
Qed.

Lemma filter_none {A} (f : A -> bool) (l : list A) :
  Forall (fun x => f x = false) l -> filter f l = [].
Proof.
  induction 1 as [|x l Hx Hl IH]; [reflexivity|].
  cbn. now rewrite Hx.
Qed.

(** X11: For a non-empty list: a report that does not ask for retraining
    has an approval rate in [0.5, 0.8], a low-confidence share of at most
    0.3 and a model trained at most ninety days ago; conversely an
    approval rate strictly between 0.5 and 0.8, with such a share and
    such a model, never asks for retraining.  (At the rates 0.5 and 0.8
    themselves the rounding of the double subtraction decides, and
    nothing is stated.)  A list of results that were all approved, or all
    denied, always asks for retraining. *)
Theorem drift_needs_retraining
    (l : list PredictionResult) (e : Env) (s : World) :
  l <> [] ->
  let d := fst (calculateDrift l e s) in
  (needsRetraining d = false ->
   (0.5 <= approvalRate d /\ approvalRate d <= 0.8)
   /\ d_low (confidenceDistribution d) <= 0.3
   /\ (now e - lastTrained (metrics (service s)) <= ninetyDays)%Z)
  /\ (0.5 < approvalRate d -> approvalRate d < 0.8 ->
      d_low (confidenceDistribution d) <= 0.3 ->
      (now e - lastTrained (metrics (service s)) <= ninetyDays)%Z ->
      needsRetraining d = false)
  /\ (Forall (fun p => prediction p = approved) l ->
      needsRetraining d = true)
  /\ (Forall (fun p => prediction p = denied) l ->
      needsRetraining d = true).
Proof.
  intros Hne. pose proof (len_pos l Hne) as Hpos.
  assert (~ len l == 0) as Hnz by (intros Hz; qlra).
  destruct l as [|p0 l0]; [contradiction|].
  cbv zeta. unfold calculateDrift, bind, getMetrics, getTime, ret.
  cbn [fst approvalRate needsRetraining confidenceDistribution d_low].
  set (l := p0 :: l0) in *.
  set (rate := len (filter _ l) / len l).
  set (lowShare := len (filter _ l) / len l).
  split; [|split; [|split]].
  - rewrite !orb_false_iff, !gtb_false, Z.ltb_ge, Qabs_Qle_condition.
    intros [[[H1 H2] H3] H4]. repeat split; try assumption; qlra.
  - intros Hlo Hhi Hlow Hfresh.
    rewrite !orb_false_iff, !gtb_false, Z.ltb_ge, Qabs_Qle_condition.
    repeat split; try assumption; qlra.
  - intros Hall.
    assert (rate == 1) as Hr.
    { unfold rate. rewrite filter_all.
      - field. exact Hnz.
      - eapply Forall_impl; [|exact Hall]. cbn. intros p ->. reflexivity. }
    assert ((Qabs (rate - 0.65) >? 0.15) = true) as ->; [|reflexivity].
    apply gtb_true. rewrite Hr. reflexivity.
  - intros Hall.
    assert (rate == 0) as Hr.
    { unfold rate. rewrite filter_none.
      - unfold len at 1. cbn. field. exact Hnz.
      - eapply Forall_impl; [|exact Hall]. cbn. intros p ->. reflexivity. }
    assert ((Qabs (rate - 0.65) >? 0.15) = true) as ->; [|reflexivity].
    apply gtb_true. rewrite Hr. reflexivity.
Qed.

Lemma drift_needs_retraining_witness :
  needsRetraining (fst (calculateDrift [sampleApproved] env0 world0)) = true
  /\ needsRetraining
       (fst (calculateDrift
               [sampleApproved; sampleApproved; sampleApproved; sampleDenied]
               env0 world0)) = false.
Proof.
  split.
  - apply (proj1 (proj2 (proj2 (drift_needs_retraining [sampleApproved]
                                  env0 world0 ltac:(discriminate))))).
    constructor; [reflexivity | constructor].
  - apply (proj1 (proj2 (drift_needs_retraining
                           [sampleApproved; sampleApproved; sampleApproved;
                            sampleDenied] env0 world0 ltac:(discriminate))));
      cbn [calculateDrift bind getMetrics getTime ret fst approvalRate
           confidenceDistribution d_low];
      first [reflexivity | apply Qle_bool_iff; reflexivity
            | vm_compute; discriminate].
Defined.

(** ** Retraining and the metrics *)

(** The metrics record that a call of [retrainModel] installs, as a
    function of the draws it consumes and of the clock. *)
Definition retrainedMetrics (td : option (list LoanApplication))
    (e : Env) (s : World) : ModelMetrics :=
  let m := metrics (service s) in
  let n := drawn s in
  {| accuracy := Qmin 0.95 (accuracy m + randoms e n * 0.02);
     precision := Qmin 0.95 (precision m + randoms e (1 + n)%nat * 0.02);
     recall := Qmin 0.95 (recall m + randoms e (2 + n)%nat * 0.02);
     f1Score := Qmin 0.95 (f1Score m + randoms e (3 + n)%nat * 0.02);
     lastTrained := now e;
     trainingSize :=
       match td with
       | Some ((_ :: _) as l) => inject_Z (Z.of_nat (List.length l))
       | _ => trainingSize m
              + inject_Z (JS.floor (randoms e (4 + n)%nat * 1000))
       end |}.

Lemma retrainModel_metrics_run
    (td : option (list LoanApplication)) (e : Env) (s : World) :
  metrics (service (snd (retrainModel td e s))) = retrainedMetrics td e s
  /\ (forall m, fst (retrainModel td e s) = Some m ->
                m = retrainedMetrics td e s).
Proof.
  destruct s as [[w m] n].
  destruct td as [[|a l]|];
    cbv beta iota zeta delta
      [retrainModel bind getMetrics random getTime newTrainingSize
       setMetrics getWeights setWeights ret perturbWeights adjustWeight
       service drawn modelWeights metrics Nat.add retrainedMetrics];
    match goal with |- context [normalizeWeights ?x] =>
      destruct (normalizeWeights x) end;
    (split;
     [reflexivity
     | intros m0 H; cbn [fst] in H;
       first [discriminate H | injection H as <-; reflexivity]]).
Qed.

Definition MetricsCapped (m : ModelMetrics) : Prop :=
  accuracy m <= 0.95 /\ precision m <= 0.95 /\ recall m <= 0.95
  /\ f1Score m <= 0.95.

Lemma reachable_metrics_capped (svc : LoanPredictionService) :
  Reachable svc -> MetricsCapped (metrics svc).
Proof.
  intros H. destruct H as [|td e s s' m _ _ Hrun].
  - unfold MetricsCapped. closed_domain.
  - destruct (retrainModel_metrics_run td e s) as [Hm _].
    rewrite Hrun in Hm. cbn [snd] in Hm. rewrite Hm.
    unfold MetricsCapped, retrainedMetrics. cbn.
    repeat split; apply Q.le_min_l.
Qed.

Lemma raised_and_capped (old r : Q) :
  old <= 0.95 -> 0 <= r ->
  old <= Qmin 0.95 (old + r * 0.02) /\ Qmin 0.95 (old + r * 0.02) <= 0.95.
Proof.
  intros Ho Hr. split.
  - apply Q.min_glb; qlra.
  - apply Q.le_min_l.
Qed.

Lemma floor_of_draw (r : Q) :
  0 <= r -> r < 1 ->
  0 <= inject_Z (JS.floor (r * 1000))
  /\ inject_Z (JS.floor (r * 1000)) <= 999.
Proof.
  intros H0 H1. unfold JS.floor.
  assert (0 <= Qfloor (r * 1000))%Z as Hlo.
  { change 0%Z with (Qfloor 0). apply Qfloor_resp_le. qlra. }
  assert (Qfloor (r * 1000) < 1000)%Z as Hhi.
  { rewrite Zlt_Qlt. eapply Qle_lt_trans; [apply Qfloor_le|].
    change (inject_Z 1000) with 1000. qlra. }
  change 0 with (inject_Z 0). change 999 with (inject_Z 999).
  rewrite <- !Zle_Qle. lia.
Qed.

(** X12: Retraining a run-time service succeeds and installs the metrics it
    returns: no metric decreases and none exceeds 0.95, the training date
    becomes the current time, and the training size becomes the length of
    a non-empty training set, or else grows by at most 999 (an empty
    training set counts as none). *)
Theorem retrainModel_updates_metrics
    (td : option (list LoanApplication)) (e : Env) (s : World) :
  Reachable (service s) ->
  RandomsInRange e ->
  exists m s',
    retrainModel td e s = (Some m, s')
    /\ metrics (service s') = m
    /\ lastTrained m = now e
    /\ (accuracy (metrics (service s)) <= accuracy m /\ accuracy m <= 0.95)
    /\ (precision (metrics (service s)) <= precision m
        /\ precision m <= 0.95)
    /\ (recall (metrics (service s)) <= recall m /\ recall m <= 0.95)
    /\ (f1Score (metrics (service s)) <= f1Score m /\ f1Score m <= 0.95)
    /\ match td with
       | Some (a :: l) => trainingSize m = len (a :: l)
       | _ => trainingSize (metrics (service s)) <= trainingSize m
              /\ trainingSize m <= trainingSize (metrics (service s)) + 999
       end.
Proof.
  intros Hreach Hr.
  destruct (retrainModel_step td e s (reachable_inv _ Hreach) Hr)
    as (m & s' & Hrun & _).
  destruct (retrainModel_metrics_run td e s) as [Hm Hres].
  rewrite Hrun in Hm, Hres. cbn [fst snd] in Hm, Hres.
  specialize (Hres m eq_refl).
  destruct (reachable_metrics_capped _ Hreach) as (Ha & Hp & Hre & Hf).
  exists m, s'. split; [exact Hrun|]. split; [congruence|].
  rewrite Hres. unfold retrainedMetrics.
  cbn [accuracy precision recall f1Score lastTrained trainingSize].
  split; [reflexivity|].
  repeat (split; [apply raised_and_capped; [assumption | apply Hr]|]).
  destruct td as [[|a l]|]; try reflexivity;
    destruct (floor_of_draw (randoms e (4 + drawn s)%nat)) as [H0 H1];
    try apply Hr; split; qlra.
Qed.

Lemma randoms_env0 : RandomsInRange env0.
Proof. intros n. cbn. split; [apply Qle_bool_iff|]; reflexivity. Qed.

Lemma retrainModel_updates_metrics_witness :
  exists m s',
    retrainModel (Some [emptyApplication]) env0 world0 = (Some m, s')
    /\ lastTrained m = now env0
    /\ trainingSize m = 1.
Proof.
  destruct (retrainModel_updates_metrics (Some [emptyApplication]) env0
              world0 reach_new randoms_env0)
    as (m & s' & Hrun & _ & Ht & _ & _ & _ & _ & Hsize).
  exists m, s'. repeat split; assumption.
Defined.

Lemma retrainModel_restores_unit_sum_witness :
  exists m s',
    retrainModel None env0 world0 = (Some m, s')
    /\ totalWeight (modelWeights (service s')) == 1.
Proof.
  destruct (retrainModel_restores_unit_sum None env0 world0 reach_new
              randoms_env0) as (m & s' & Hrun & _ & Hsum).
  exists m, s'. split; assumption.
Defined.

(** X14: A report computed within ninety days of a retraining never asks
    for retraining on account of age: with an approval rate strictly
    between 0.5 and 0.8 and a low-confidence share of at most 0.3 it does
    not ask, and whenever it does not ask the approval rate lies in
    [0.5, 0.8] and the low-confidence share is at most 0.3.  (Nothing is
    stated at the rates 0.5 and 0.8 themselves.) *)
Theorem drift_after_retraining
    (td : option (list LoanApplication)) (e e2 : Env) (s : World)
    (l : list PredictionResult) :
  Reachable (service s) ->
  RandomsInRange e ->
  (now e2 - now e <= ninetyDays)%Z ->
  l <> [] ->
  exists m s',
    retrainModel td e s = (Some m, s')
    /\ let d := fst (calculateDrift l e2 s') in
       (0.5 < approvalRate d -> approvalRate d < 0.8 ->
        d_low (confidenceDistribution d) <= 0.3 ->
        needsRetraining d = false)
       /\ (needsRetraining d = false ->
           (0.5 <= approvalRate d /\ approvalRate d <= 0.8)
           /\ d_low (confidenceDistribution d) <= 0.3).
Proof.
  intros Hreach Hr Hclock Hne.
  destruct (retrainModel_step td e s (reachable_inv _ Hreach) Hr)
    as (m & s' & Hrun & _).
  destruct (retrainModel_metrics_run td e s) as [Hm _].
  rewrite Hrun in Hm. cbn [snd] in Hm.
  exists m, s'. split; [exact Hrun|].
  destruct l as [|p0 l0]; [contradiction|].
  cbv zeta. unfold calculateDrift, bind, getMetrics, getTime, ret.
  cbn [fst approvalRate needsRetraining confidenceDistribution d_low].
  rewrite Hm. cbn [retrainedMetrics lastTrained].
  rewrite !orb_false_iff, !gtb_false, Z.ltb_ge, Qabs_Qle_condition.
  split.
  - intros Hlo Hhi Hlow. repeat split; try assumption; qlra.
  - intros [[[H1 H2] H3] H4]. repeat split; try assumption; qlra.
Qed.

Lemma drift_after_retraining_witness :
  exists m s',
    retrainModel None env0 world0 = (Some m, s')
    /\ needsRetraining
         (fst (calculateDrift
                 [sampleApproved; sampleApproved; sampleApproved;
                  sampleDenied] env0 s')) = false.
Proof.
  destruct (drift_after_retraining None env0 env0 world0
              [sampleApproved; sampleApproved; sampleApproved; sampleDenied]
              reach_new randoms_env0)
    as (m & s' & Hrun & Hin & _).
  - vm_compute. discriminate.
  - discriminate.
  - exists m, s'. split; [exact Hrun|]. apply Hin;
      cbn [calculateDrift bind getMetrics getTime ret fst approvalRate
           confidenceDistribution d_low];
      first [reflexivity | apply Qle_bool_iff; reflexivity].
Defined.

(** ** Stored applications with out-of-range columns *)







(** ** The probability as a function of the score *)




(** ** Approval reasons against positive factors *)

Definition mem (s : string) (l : list string) : bool :=
  existsb (String.eqb s) l.

Lemma In_mem (s : string) (l : list string) : In s l <-> mem s l = true.
Proof.
  unfold mem. rewrite existsb_exists. split.
  - intros H. exists s. split; [assumption | apply String.eqb_refl].
  - intros [x [Hx He]]. apply String.eqb_eq in He. now subst.
Qed.

Lemma mem_app (s : string) (l l' : list string) :
  mem s (l ++ l') = mem s l || mem s l'.
Proof. apply existsb_app. Qed.

Lemma mem_push_if (s : string) (c : bool) (t : string) :
  mem s (push_if c t) = c && String.eqb s t.
Proof. destruct c; cbn; [apply orb_false_r | reflexivity]. Qed.

Lemma mem_if (s : string) (c : bool) (l l' : list string) :
  mem s (if c then l else l') = if c then mem s l else mem s l'.
Proof. now destruct c. Qed.

(** Evaluates the comparisons of closed strings in the goal. *)
Ltac closed_string_tests :=
  repeat match goal with
  | |- context [String.eqb ?a ?b] =>
      let v := eval vm_compute in (String.eqb a b) in
      lazymatch v with
      | true => change (String.eqb a b) with true
      | false => change (String.eqb a b) with false
      end
  end.

Ltac mem_tests :=
  repeat rewrite In_mem;
  repeat rewrite mem_app; repeat rewrite mem_push_if;
  repeat rewrite mem_if;
  unfold mem; cbn [existsb];
  closed_string_tests;
  repeat rewrite andb_false_r; repeat rewrite andb_true_r;
  repeat rewrite orb_false_r; repeat rewrite orb_false_l;
  cbn [orb andb].

(** X17: The reasons given for an approval agree with the positive-factor
    list: the credit, debt-to-income, income, clean-history, home and
    verification sentences appear exactly when the matching label does;
    the employment sentence is looser (three years against five), so the
    label implies the sentence but not the other way round. *)
Theorem approval_reasons_match_positive_factors
    (i : LoanPredictionInput) (score : Q) :
  let reasons := generateReasons i score approved in
  let positives := identifyPositiveFactors i in
  (In "Excellent credit score demonstrates strong payment history" reasons
   <-> In "Excellent credit score" positives)
  /\ (In "Good credit score indicates reliable payment behavior" reasons
      <-> In "Good credit score" positives)
  /\ (In "Low debt-to-income ratio shows strong financial capacity" reasons
      <-> In "Low debt-to-income ratio" positives)
  /\ (In "High annual income provides strong repayment ability" reasons
      <-> In "High annual income" positives)
  /\ (In "Clean credit history with no major derogatory marks" reasons
      <-> In "Clean credit history" positives)
  /\ (In "Home ownership indicates financial stability" reasons
      <-> In "Home ownership" positives)
  /\ (In "Verified income information increases confidence" reasons
      <-> In "Verified income" positives)
  /\ (In "Long employment history" positives
      -> In "Stable employment history reduces risk" reasons).
Proof.
  cbv zeta. unfold generateReasons, identifyPositiveFactors.
  repeat match goal with |- _ /\ _ => split end; mem_tests;
    try reflexivity;
    try (unfold JS.geb, JS.ltb;
         repeat match goal with |- context [Qle_bool ?a ?b] =>
           destruct (Qle_bool a b) end;
         cbn; intuition congruence).
  intros H. apply geb_true in H.
  assert ((employmentLength i >=? 3) = true) as -> by (apply geb_true; qlra).
  apply orb_true_r.
Qed.

Lemma approval_reasons_match_positive_factors_witness :
  In "Stable employment history reduces risk"
    (generateReasons (scenarioA "home_loan") 795 approved).
Proof.
  apply (proj2 (proj2 (proj2 (proj2 (proj2 (proj2 (proj2
           (approval_reasons_match_positive_factors
              (scenarioA "home_loan") 795)))))))).
  vm_compute. tauto.
Defined.
